(** * EMSCEditor: the parameter editor of the EMSC preprocessor

    A shallow embedding of
    [orangecontrib/spectroscopy/widgets/preprocessors/emsc.py].

    The editor is a Qt form.  What is kept of it here is the state its methods
    read and write: the three scalar options, the reference and preview
    tables, the rows of range widgets, the texts the methods set and whether
    the reference curve is shown.  The points of that curve are a function of
    the reference and are not stored.  Signals ([edited.emit]) and the curve
    plot of the parent widget (the markings handled by [activateOptions] and
    at the end of [delete_range]) belong to the host and are left out.

    Python values are dynamically typed, so the options and the entries of a
    [params] mapping are elements of one type [value]; operations that Python
    may refuse return a [result].  A method runs on a [frame] holding the two
    objects it can reach by reference: the editor [self] and the mapping
    [params] it was called with.

    An assignment to an attribute stores the value.  Orange binds [order],
    [scaling], [output_model] and the position of a line edit to controls
    that show the value assigned; these controls are outside this file, and
    what they do with a value they cannot show (a string for the spin box, an
    integer beyond the doubles for a position) is left out: here every
    assignment goes through.  [valid_options] and [float_entry] below delimit
    the values that the controls take: an integer for [order], booleans for
    the check boxes, floats for the positions. *)

From Stdlib Require Import ZArith PrimFloat SpecFloat FloatOps.
From stdpp Require Import gmap strings list fin_maps pretty.

Local Open Scope Z_scope.
Local Set Warnings "-register-all".

(** ** Python values *)

(** An Orange data table: the names of its columns and its rows. *)
Record Table := { domain : list string; rows : list (list float) }.

Inductive value :=
| VNone
| VBool (b : bool)
| VInt (z : Z)
| VFloat (f : float)
| VStr (s : string)
| VList (l : list value)          (* a list or a tuple *)
| VTable (t : Table).

Inductive exn := TypeError | ValueError | OverflowError.

Inductive result (A : Type) :=
| Ok (a : A)
| Raise (e : exn).
Arguments Ok {A} a.
Arguments Raise {A} e.

Definition is_ok {A} (r : result A) : bool :=
  match r with Ok _ => true | Raise _ => false end.

(** [bool(v)]: the truth value of [v] in a condition. *)
Definition py_truth (v : value) : bool :=
  match v with
  | VNone => false
  | VBool b => b
  | VInt z => negb (z =? 0)
  | VFloat f => negb (PrimFloat.eqb f 0%float)
  | VStr s => negb (String.eqb s "")
  | VList l => negb (Nat.eqb (length l) 0)
  | VTable t => negb (Nat.eqb (length (rows t)) 0)
  end.

(** [v is None] *)
Definition is_None (v : value) : bool :=
  match v with VNone => true | _ => false end.

Fixpoint chars (s : string) : list value :=
  match s with
  | EmptyString => []
  | String c s' => VStr (String c EmptyString) :: chars s'
  end.

(** [iter(v)], what a [for] loop or an unpacking goes through. *)
Definition py_iter (v : value) : result (list value) :=
  match v with
  | VList l => Ok l
  | VStr s => Ok (chars s)
  | VTable t => Ok (map (fun r => VList (map VFloat r)) (rows t))
  | VNone | VBool _ | VInt _ | VFloat _ => Raise TypeError
  end.

(** [(a, b, c) = v] *)
Definition unpack3 (v : value) : result (value * value * value) :=
  match py_iter v with
  | Ok [a; b; c] => Ok (a, b, c)
  | Ok _ => Raise ValueError
  | Raise e => Raise e
  end.

(** The double nearest to an integer (ties to even). *)
Definition float_of_Z (z : Z) : float :=
  SF2Prim (binary_normalize prec emax z 0 false).

(** ** What the file imports from the rest of the package

    [REFERENCE_DATA_PARAM], [ranges_to_weight_table] and [preview_min_max]
    are defined in other modules of the package; the editor only calls them.
    So is [XPosLineEdit], of which the state of a new instance is needed.
    They are parameters of the development, as is the grammar of float
    literals that [float()] accepts on a [str] ([None] for a string that is
    not a literal).

    [ranges_to_weight_table] goes through the triples of its argument and
    raises on a value it cannot go through.  It is given by two functions: the
    exception it raises on a value, if any, and the table it returns on the
    other values.  On a list of triples of floats, the shape of the persisted
    ranges, it returns. *)

(** Modelled from the spec: XPosLineEdit (orangecontrib.spectroscopy.widgets.gui)
    is not part of this file.  The spec has a range widget hold a position on
    the x-axis; the editor also gives it a default through [set_default]. *)
Record XPosLineEdit := { position : value; default_value : value }.

Class External := {
  REFERENCE_DATA_PARAM : string;
  weight_table : Type;
  (* Modelled from the spec: the range-to-weight-table conversion of the
     external collaborator; the table it makes of the ranges, when it
     returns *)
  ranges_to_weight_table : value -> weight_table;
  (* what the conversion raises on a value, [None] when it returns *)
  ranges_to_weight_table_raises : value -> option exn;
  ranges_to_weight_table_float_triples :
    forall rs : list (float * float * float),
      ranges_to_weight_table_raises
        (VList (map (fun r => VList [VFloat r.1.1; VFloat r.1.2; VFloat r.2]) rs))
      = None;
  (* PreviewMinMaxMixin.preview_min_max, a function of [self.preview_data] *)
  preview_min_max : option Table -> value * value;
  (* XPosLineEdit(label="") *)
  XPosLineEdit_new : XPosLineEdit;
  float_of_str : string -> option float;
}.

(** ** The editor state *)

(** A row of [ranges_box]: the box made by [add_range_selection_ui].  Its
    layout holds the two line edits and the remove button; the line edits are
    named by their index in [widgets]. *)
Record hbox := { mine : nat; maxe : nat }.

Global Instance hbox_eq_dec : EqDecision hbox.
Proof. solve_decision. Defined.

Record EMSCEditor := {
  reference : option Table;
  preview_data : option Table;
  order : value;
  scaling : value;
  output_model : value;
  user_changed : bool;
  reference_info : string * string;      (* text and style sheet of the label *)
  reference_curve_visible : value;
  range_button : string;                 (* text of the button *)
  ranges_box : list hbox;                (* rows of the layout, in order *)
  widgets : list XPosLineEdit;           (* every line edit created so far *)
}.

Definition ORDER_DEFAULT : value := VInt 2.
Definition SCALING_DEFAULT : value := VBool true.
Definition OUTPUT_MODEL_DEFAULT : value := VBool false.

Definition with_reference (r : option Table) (s : EMSCEditor) : EMSCEditor :=
  {| reference := r; preview_data := preview_data s; order := order s;
     scaling := scaling s; output_model := output_model s;
     user_changed := user_changed s; reference_info := reference_info s;
     reference_curve_visible := reference_curve_visible s;
     range_button := range_button s; ranges_box := ranges_box s;
     widgets := widgets s |}.

Definition with_preview_data (d : option Table) (s : EMSCEditor) : EMSCEditor :=
  {| reference := reference s; preview_data := d; order := order s;
     scaling := scaling s; output_model := output_model s;
     user_changed := user_changed s; reference_info := reference_info s;
     reference_curve_visible := reference_curve_visible s;
     range_button := range_button s; ranges_box := ranges_box s;
     widgets := widgets s |}.

Definition with_order (v : value) (s : EMSCEditor) : EMSCEditor :=
  {| reference := reference s; preview_data := preview_data s; order := v;
     scaling := scaling s; output_model := output_model s;
     user_changed := user_changed s; reference_info := reference_info s;
     reference_curve_visible := reference_curve_visible s;
     range_button := range_button s; ranges_box := ranges_box s;
     widgets := widgets s |}.

Definition with_scaling (v : value) (s : EMSCEditor) : EMSCEditor :=
  {| reference := reference s; preview_data := preview_data s; order := order s;
     scaling := v; output_model := output_model s;
     user_changed := user_changed s; reference_info := reference_info s;
     reference_curve_visible := reference_curve_visible s;
     range_button := range_button s; ranges_box := ranges_box s;
     widgets := widgets s |}.

Definition with_output_model (v : value) (s : EMSCEditor) : EMSCEditor :=
  {| reference := reference s; preview_data := preview_data s; order := order s;
     scaling := scaling s; output_model := v;
     user_changed := user_changed s; reference_info := reference_info s;
     reference_curve_visible := reference_curve_visible s;
     range_button := range_button s; ranges_box := ranges_box s;
     widgets := widgets s |}.

Definition with_user_changed (b : bool) (s : EMSCEditor) : EMSCEditor :=
  {| reference := reference s; preview_data := preview_data s; order := order s;
     scaling := scaling s; output_model := output_model s;
     user_changed := b; reference_info := reference_info s;
     reference_curve_visible := reference_curve_visible s;
     range_button := range_button s; ranges_box := ranges_box s;
     widgets := widgets s |}.

Definition with_reference_info (t : string * string) (s : EMSCEditor) : EMSCEditor :=
  {| reference := reference s; preview_data := preview_data s; order := order s;
     scaling := scaling s; output_model := output_model s;
     user_changed := user_changed s; reference_info := t;
     reference_curve_visible := reference_curve_visible s;
     range_button := range_button s; ranges_box := ranges_box s;
     widgets := widgets s |}.

Definition with_reference_curve_visible (v : value) (s : EMSCEditor) : EMSCEditor :=
  {| reference := reference s; preview_data := preview_data s; order := order s;
     scaling := scaling s; output_model := output_model s;
     user_changed := user_changed s; reference_info := reference_info s;
     reference_curve_visible := v;
     range_button := range_button s; ranges_box := ranges_box s;
     widgets := widgets s |}.

Definition with_range_button (t : string) (s : EMSCEditor) : EMSCEditor :=
  {| reference := reference s; preview_data := preview_data s; order := order s;
     scaling := scaling s; output_model := output_model s;
     user_changed := user_changed s; reference_info := reference_info s;
     reference_curve_visible := reference_curve_visible s;
     range_button := t; ranges_box := ranges_box s;
     widgets := widgets s |}.

Definition with_ranges_box (l : list hbox) (s : EMSCEditor) : EMSCEditor :=
  {| reference := reference s; preview_data := preview_data s; order := order s;
     scaling := scaling s; output_model := output_model s;
     user_changed := user_changed s; reference_info := reference_info s;
     reference_curve_visible := reference_curve_visible s;
     range_button := range_button s; ranges_box := l;
     widgets := widgets s |}.

Definition with_widgets (l : list XPosLineEdit) (s : EMSCEditor) : EMSCEditor :=
  {| reference := reference s; preview_data := preview_data s; order := order s;
     scaling := scaling s; output_model := output_model s;
     user_changed := user_changed s; reference_info := reference_info s;
     reference_curve_visible := reference_curve_visible s;
     range_button := range_button s; ranges_box := ranges_box s;
     widgets := l |}.

(** ** Frames and the monad of methods *)

(** The objects a call reaches: the editor and the mapping passed to it. *)
Record frame := { self : EMSCEditor; params : gmap string value }.

(** A method returns or raises, and leaves a frame behind in both cases: what
    was assigned before an exception stays assigned. *)
Definition M (A : Type) : Type := frame -> result A * frame.

Definition ret {A} (a : A) : M A := fun fr => (Ok a, fr).

Definition bind {A B} (m : M A) (k : A -> M B) : M B :=
  fun fr =>
    match m fr with
    | (Ok a, fr') => k a fr'
    | (Raise e, fr') => (Raise e, fr')
    end.

Declare Scope method_scope.
Notation "x ← y ; z" := (bind y (fun x => z))
  (at level 20, y at level 100, z at level 200, only parsing) : method_scope.
Notation "' x ← y ; z" := (bind y (fun x => z))
  (at level 20, x pattern, y at level 100, z at level 200, only parsing) : method_scope.
Notation "x ;; z" := (bind x (fun _ => z))
  (at level 100, z at level 200, only parsing, right associativity) : method_scope.
Local Open Scope method_scope.

Definition lift {A} (r : result A) : M A := fun fr => (r, fr).

Definition get_self : M EMSCEditor := fun fr => (Ok (self fr), fr).

Definition modify_self (f : EMSCEditor -> EMSCEditor) : M unit :=
  fun fr => (Ok tt, {| self := f (self fr); params := params fr |}).

(** [params.get(key, dflt)] *)
Definition params_get (key : string) (dflt : value) : M value :=
  fun fr => (Ok (default dflt (params fr !! key)), fr).

(** [bool(params)]: a mapping is true when it has an entry. *)
Definition params_truth : M bool :=
  fun fr => (Ok (negb (Nat.eqb (size (params fr)) 0)), fr).

Fixpoint for_each {A} (l : list A) (body : A -> M unit) : M unit :=
  match l with
  | [] => ret tt
  | x :: l' => body x ;; for_each l' body
  end.

(** [m] called on editor [s] with argument [p]. *)
Definition call {A} (m : M A) (p : gmap string value) (s : EMSCEditor) : result A * frame :=
  m {| self := s; params := p |}.

(** ** The methods of [EMSCEditor] *)

Section Editor.
Context `{External}.

(** [float(v)] *)
Definition py_float (v : value) : result float :=
  match v with
  | VFloat f => Ok f
  | VInt z =>
      let f := float_of_Z z in
      if is_infinity f then Raise OverflowError else Ok f
  | VBool b => Ok (if b then 1%float else 0%float)
  | VStr s =>
      match float_of_str s with
      | Some f => Ok f
      | None => Raise ValueError
      end
  | VNone | VList _ | VTable _ => Raise TypeError
  end.

(** The line edit named [w]. *)
Definition widget (s : EMSCEditor) (w : nat) : XPosLineEdit :=
  default XPosLineEdit_new (widgets s !! w).

(** [w.position] *)
Definition get_position (w : nat) : M value :=
  s ← get_self; ret (position (widget s w)).

(** The editor once the line edit [w] holds position [v]. *)
Definition write_position (w : nat) (v : value) (s : EMSCEditor) : EMSCEditor :=
  with_widgets
    (alter (fun x => {| position := v; default_value := default_value x |}) w (widgets s)) s.

(** The editor once the line edit [w] has default [v]. *)
Definition write_default (w : nat) (v : value) (s : EMSCEditor) : EMSCEditor :=
  with_widgets
    (alter (fun x => {| position := position x; default_value := v |}) w (widgets s)) s.

(** [w.position = v]: the store of [v] in the line edit.  What the line edit
    does with a value it cannot show is left out, as the head of the file
    says. *)
Definition set_position (w : nat) (v : value) : M unit :=
  modify_self (write_position w v).

(** [w.set_default(v)] *)
Definition set_default (w : nat) (v : value) : M unit :=
  modify_self (write_default w v).

(** [XPosLineEdit(label="")]: a new line edit, returned by name. *)
Definition new_XPosLineEdit : M nat :=
  s ← get_self;
  modify_self (with_widgets (widgets s ++ [XPosLineEdit_new]));;
  ret (length (widgets s)).

(** [self.preview_min_max()] *)
Definition self_preview_min_max : M (value * value) :=
  s ← get_self; ret (preview_min_max (preview_data s)).

Definition __init__ : EMSCEditor :=
  {| reference := None;
     preview_data := None;
     order := ORDER_DEFAULT;
     scaling := SCALING_DEFAULT;
     output_model := OUTPUT_MODEL_DEFAULT;
     user_changed := false;
     reference_info := ("", "");
     reference_curve_visible := VBool true;
     range_button := "Select Region";
     ranges_box := [];
     widgets := [] |}.

Definition _set_button_text : M unit :=
  modify_self (fun s =>
    with_range_button
      (if Nat.eqb (length (ranges_box s)) 0 then "Select Region" else "Add Region") s).

Definition add_range_selection_ui : M hbox :=
  '(pmin, pmax) ← self_preview_min_max;
  mine ← new_XPosLineEdit;
  maxe ← new_XPosLineEdit;
  set_default mine pmin;;
  set_default maxe pmax;;
  let linelayout := {| mine := mine; maxe := maxe |} in
  modify_self (fun s => with_ranges_box (ranges_box s ++ [linelayout]) s);;
  _set_button_text;;
  ret linelayout.

(** The first two widgets of a row, its two line edits. *)
Definition _extract_pair (container : hbox) : nat * nat :=
  (mine container, maxe container).

Definition add_range_selection : M unit :=
  '(pmin, pmax) ← self_preview_min_max;
  lw ← add_range_selection_ui;
  let pair := _extract_pair lw in
  set_position pair.1 pmin;;
  set_position pair.2 pmax.

(** [layout().removeWidget(box)] *)
Fixpoint removeWidget (box : hbox) (l : list hbox) : list hbox :=
  match l with
  | [] => []
  | b :: l' => if decide (b = box) then l' else b :: removeWidget box l'
  end.

Definition delete_range (box : hbox) : M unit :=
  modify_self (fun s => with_ranges_box (removeWidget box (ranges_box s)) s);;
  _set_button_text.

Definition _range_widgets : M (list (nat * nat)) :=
  s ← get_self; ret (map _extract_pair (ranges_box s)).

(** The loop of [_set_range_parameters] from index [i] on; [rw] is the list
    taken before the loop. *)
Fixpoint _set_range_parameters_loop (rw : list (nat * nat)) (i : nat)
    (ranges : list value) : M unit :=
  match ranges with
  | [] => ret tt
  | item :: rest =>
      '(rmin, rhigh, weight) ← lift (unpack3 item);
      pair ← (if Nat.leb (length rw) i
              then lw ← add_range_selection_ui; ret (_extract_pair lw)
              else ret (rw !!! i));
      set_position pair.1 rmin;;
      set_position pair.2 rhigh;;
      _set_range_parameters_loop rw (S i) rest
  end.

Definition _set_range_parameters : M unit :=
  ranges ← params_get "ranges" (VList []);
  rw ← _range_widgets;
  items ← lift (py_iter ranges);
  _set_range_parameters_loop rw 0 items.

Definition update_reference_info : M unit :=
  s ← get_self;
  match reference s with
  | Some t =>
      if Nat.eqb (length (rows t)) 0 then
        modify_self (with_reference_curve_visible (VBool false));;
        modify_self (with_reference_info ("Reference: missing!", "color: red"))
      else
        let rinfo :=
          if Nat.ltb 1 (length (rows t))
          then "mean of " +:+ pretty (length (rows t)) +:+ " spectra"
          else "1 spectrum" in
        modify_self (with_reference_info ("Reference: " +:+ rinfo, "color: black"));;
        modify_self (with_reference_curve_visible (scaling s))
  | None =>
      modify_self (with_reference_curve_visible (VBool false));;
      modify_self (with_reference_info ("Reference: missing!", "color: red"))
  end.

(** The assignments to [order], [scaling] and [output_model] store the
    values of [params]; what the spin box and the check boxes bound to them
    do with a value they cannot show is left out, as the head of the file
    says. *)
Definition setParameters : M unit :=
  b ← params_truth;
  (if b then modify_self (with_user_changed true) else ret tt);;
  v ← params_get "order" ORDER_DEFAULT;
  modify_self (with_order v);;
  v ← params_get "scaling" SCALING_DEFAULT;
  modify_self (with_scaling v);;
  v ← params_get "output_model" OUTPUT_MODEL_DEFAULT;
  modify_self (with_output_model v);;
  _set_range_parameters;;
  update_reference_info.

(** Modelled from the spec: BaseEditorOrange.parameters
    (orangecontrib.spectroscopy.widgets.preprocessors.utils) is not part of
    this file.  The spec has [parameters()] produce a mapping mirroring the one
    [setParameters] accepts: the keys [order], [scaling] and [output_model]
    with the editor's values. *)
Definition super_parameters : M (gmap string value) :=
  s ← get_self;
  ret (<["order" := order s]> (<["scaling" := scaling s]>
        (<["output_model" := output_model s]> ∅))).

(** The mapping [parameters()] returns when the rows give the entries [l]. *)
Definition parameters_of (s : EMSCEditor) (l : list value) : gmap string value :=
  <["ranges" := VList l]>
    (<["order" := order s]> (<["scaling" := scaling s]>
      (<["output_model" := output_model s]> ∅))).

(** [d[key].append(x)] *)
Definition dict_append (key : string) (x : value) (d : gmap string value)
    : gmap string value :=
  alter (fun v => match v with VList l => VList (l ++ [x]) | _ => v end) key d.

Fixpoint parameters_loop (pairs : list (nat * nat)) (parameters : gmap string value)
    : M (gmap string value) :=
  match pairs with
  | [] => ret parameters
  | x :: rest =>
      let pair := x in
      p0 ← get_position pair.1;
      f0 ← lift (py_float p0);
      p1 ← get_position pair.2;
      f1 ← lift (py_float p1);
      parameters_loop rest
        (dict_append "ranges" (VList [VFloat f0; VFloat f1; VFloat 1%float]) parameters)
  end.

Definition parameters : M (gmap string value) :=
  parameters ← super_parameters;
  let parameters := <["ranges" := VList []]> parameters in
  rw ← _range_widgets;
  parameters_loop rw parameters.

(** [ranges_to_weight_table(ranges)]: the call, which returns the table or
    raises. *)
Definition call_ranges_to_weight_table (ranges : value) : result weight_table :=
  match ranges_to_weight_table_raises ranges with
  | Some e => Raise e
  | None => Ok (ranges_to_weight_table ranges)
  end.

Definition _compute_weights : M (option weight_table) :=
  let weights := None in
  ranges ← params_get "ranges" (VList []);
  if py_truth ranges then
    weights ← lift (call_ranges_to_weight_table ranges);
    ret (Some weights)
  else
    ret weights.

(** [data[:stop]] on a table *)
Definition Table_getslice (data : Table) (stop : nat) : Table :=
  {| domain := domain data; rows := take stop (rows data) |}.

(** Modelled from the spec: EMSC (orangecontrib.spectroscopy.preprocess) is
    not part of this file.  The spec has its constructor accept (reference,
    weights, order, scaling, output_model); an instance is the record of the
    arguments it was made with.

    [transform] is what [createinstance] returns: a function of the data, or
    an instance of EMSC. *)
Inductive transform :=
| Lambda (f : Table -> Table)
| EMSC (reference : value) (weights : option weight_table)
       (order scaling output_model : value).

Definition createinstance : M transform :=
  order ← params_get "order" ORDER_DEFAULT;
  scaling ← params_get "scaling" SCALING_DEFAULT;
  output_model ← params_get "output_model" OUTPUT_MODEL_DEFAULT;
  weights ← _compute_weights;
  reference ← params_get REFERENCE_DATA_PARAM VNone;
  if is_None reference then
    ret (Lambda (fun data => Table_getslice data 0))
  else
    ret (EMSC reference weights order scaling output_model).

Definition set_reference_data (reference : option Table) : M unit :=
  modify_self (with_reference reference);;
  update_reference_info.

Definition set_preview_data (data : option Table) : M unit :=
  modify_self (with_preview_data data);;
  '(pmin, pmax) ← self_preview_min_max;
  rw ← _range_widgets;
  for_each rw (fun pair =>
    set_default pair.1 pmin;;
    set_default pair.2 pmax);;
  s ← get_self;
  if negb (user_changed s) then
    rw ← _range_widgets;
    (* [pair[0] = pmin] and [pair[1] = pmax] fill the slots of the list that
       [_extract_pair] has just made; no line edit is written *)
    for_each rw (fun pair => ret tt)
  else ret tt.

(** ** Edits through the controls made by [__init__] *)

(** The spin box of [order], made with [minv=0] and [maxv=10]: it holds an
    integer within these bounds and writes it to [order]. *)
Definition spin_order (v : Z) : M unit :=
  modify_self (with_order (VInt (Z.max 0 (Z.min 10 v)))).

Definition checkBox_scaling (b : bool) : M unit :=
  modify_self (with_scaling (VBool b)).

Definition checkBox_output_model (b : bool) : M unit :=
  modify_self (with_output_model (VBool b)).

(** Typing a position into the line edit [w]. *)
Definition lineEdit_position (w : nat) (x : float) : M unit :=
  set_position w (VFloat x).

(** The operations on an editor: calls of its methods by the host and edits
    by the user. *)
Inductive operation :=
| OpSetParameters (p : gmap string value)
| OpParameters
| OpSetReferenceData (r : option Table)
| OpSetPreviewData (d : option Table)
| OpSpinOrder (v : Z)
| OpCheckScaling (b : bool)
| OpCheckOutputModel (b : bool)
| OpLineEdit (w : nat) (x : float)
| OpAddRange                  (* click on [range_button] *)
| OpDeleteRange (box : hbox). (* click on the remove button of a row *)

(** The editor after an operation, whether it returned or raised. *)
Definition step (s : EMSCEditor) (op : operation) : EMSCEditor :=
  match op with
  | OpSetParameters p => self (call setParameters p s).2
  | OpParameters => self (call parameters ∅ s).2
  | OpSetReferenceData r => self (call (set_reference_data r) ∅ s).2
  | OpSetPreviewData d => self (call (set_preview_data d) ∅ s).2
  | OpSpinOrder v => self (call (spin_order v) ∅ s).2
  | OpCheckScaling b => self (call (checkBox_scaling b) ∅ s).2
  | OpCheckOutputModel b => self (call (checkBox_output_model b) ∅ s).2
  | OpLineEdit w x => self (call (lineEdit_position w x) ∅ s).2
  | OpAddRange => self (call add_range_selection ∅ s).2
  | OpDeleteRange box => self (call (delete_range box) ∅ s).2
  end.

Definition run (ops : list operation) : EMSCEditor := foldl step __init__ ops.

(** ** What the properties are stated with *)

(** The two positions a row shows, and those of all rows in order. *)
Definition row_positions (s : EMSCEditor) (b : hbox) : value * value :=
  (position (widget s (mine b)), position (widget s (maxe b))).

Definition range_positions (s : EMSCEditor) : list (value * value) :=
  map (row_positions s) (ranges_box s).

(** The line edits of a list of rows. *)
Definition line_edits (l : list hbox) : list nat :=
  flat_map (fun b => [mine b; maxe b]) l.

(** The rows of an editor hold distinct line edits, all of them created. *)
Definition well_formed (s : EMSCEditor) : Prop :=
  NoDup (line_edits (ranges_box s)) /\
  Forall (fun w => (w < length (widgets s))%nat) (line_edits (ranges_box s)).

(** A computation is stable for [R] when the frame it leaves is related by
    [R] to the frame it started from. *)
Definition stable (R : frame -> frame -> Prop) {A} (m : M A) : Prop :=
  forall fr, R fr (m fr).2.

(** Nothing but the range rows, their line edits and the displayed texts changed. *)
Definition same_options (fr fr' : frame) : Prop :=
  params fr' = params fr /\
  order (self fr') = order (self fr) /\
  scaling (self fr') = scaling (self fr) /\
  output_model (self fr') = output_model (self fr) /\
  user_changed (self fr') = user_changed (self fr) /\
  reference (self fr') = reference (self fr) /\
  preview_data (self fr') = preview_data (self fr).

Definition same_order (fr fr' : frame) : Prop :=
  order (self fr') = order (self fr).

(** The rows that were there are still there, in the same places. *)
Definition rows_kept (fr fr' : frame) : Prop :=
  ranges_box (self fr) `prefix_of` ranges_box (self fr').

(** An editor that was well formed still is. *)
Definition keeps_well_formed (fr fr' : frame) : Prop :=
  well_formed (self fr) -> well_formed (self fr').

(** A [[min, max, weight]] entry of [ranges]. *)
Definition range_entry (r : value * value * value) : value :=
  VList [r.1.1; r.1.2; r.2].

Definition float_entry (r : float * float * value) : value :=
  VList [VFloat r.1.1; VFloat r.1.2; r.2].

(** The entry [parameters()] writes for a row at [min] and [max]. *)
Definition output_entry (r : float * float) : value :=
  VList [VFloat r.1; VFloat r.2; VFloat 1%float].

(** [parameters()] on rows showing [v], without the editor. *)
Fixpoint ranges_of_positions (v : list (value * value)) : result (list value) :=
  match v with
  | [] => Ok []
  | (a, b) :: rest =>
      match py_float a with
      | Raise e => Raise e
      | Ok fa =>
          match py_float b with
          | Raise e => Raise e
          | Ok fb =>
              match ranges_of_positions rest with
              | Raise e => Raise e
              | Ok l => Ok (output_entry (fa, fb) :: l)
              end
          end
      end
  end.

(** The positions the rows show after the loop of [_set_range_parameters]
    has gone through the entries [rs] from index [i] on, when they showed [v]
    and [n] rows had been listed before the loop. *)
Fixpoint positions_after (n i : nat) (rs : list (value * value * value))
    (v : list (value * value)) : list (value * value) :=
  match rs with
  | [] => v
  | r :: rest =>
      positions_after n (S i) rest
        (if Nat.leb n i then v ++ [r.1] else <[i := r.1]> v)
  end.

(** What going through the entries of [ranges] and unpacking each into three
    raises, if anything. *)
Fixpoint unpack_entries (items : list value) : result unit :=
  match items with
  | [] => Ok tt
  | item :: rest =>
      match unpack3 item with
      | Ok _ => unpack_entries rest
      | Raise e => Raise e
      end
  end.

(** A computation that returns on every frame. *)
Definition returns {A} (m : M A) : Prop :=
  forall fr, exists a, (m fr).1 = Ok a.

(** What [_compute_weights] gives on a mapping. *)
Definition weights_of (p : gmap string value) : result (option weight_table) :=
  let ranges := default (VList []) (p !! "ranges") in
  if py_truth ranges then
    match ranges_to_weight_table_raises ranges with
    | Some e => Raise e
    | None => Ok (Some (ranges_to_weight_table ranges))
    end
  else Ok None.

(** An integer that a spin box takes: one of the range of a C [int]. *)
Definition spin_value (v : value) : Prop :=
  exists z, v = VInt z /\ -2147483648 <= z <= 2147483647.

Definition bool_value (v : value) : Prop := exists b, v = VBool b.

(** The options of a mapping are values that the controls bound to them
    take: an integer for [order], booleans for [scaling] and [output_model];
    any of the keys may be missing. *)
Definition valid_options (p : gmap string value) : Prop :=
  (forall v, p !! "order" = Some v -> spin_value v) /\
  (forall v, p !! "scaling" = Some v -> bool_value v) /\
  (forall v, p !! "output_model" = Some v -> bool_value v).

(** [order] is an integer from 0 to 10. *)
Definition order_in_range (v : value) : Prop :=
  exists z, v = VInt z /\ 0 <= z <= 10.

(** The editor once [setParameters] has assigned [user_changed] and the three
    options, before it turns to the ranges. *)
Definition assign_options (p : gmap string value) (s : EMSCEditor) : EMSCEditor :=
  with_output_model (default OUTPUT_MODEL_DEFAULT (p !! "output_model"))
    (with_scaling (default SCALING_DEFAULT (p !! "scaling"))
      (with_order (default ORDER_DEFAULT (p !! "order"))
        (if negb (Nat.eqb (size p) 0) then with_user_changed true s else s))).

(** An empty list, tuple or string. *)
Definition empty_sequence (v : value) : Prop := v = VList [] \/ v = VStr "".



(** The [order] key of a mapping, when present, is an integer from 0 to 10. *)
Definition order_key_in_range (op : operation) : Prop :=
  match op with
  | OpSetParameters p => forall v, p !! "order" = Some v -> order_in_range v
  | _ => True
  end.

(** ** What the further properties are stated with *)

(** The text [_set_button_text] gives the button for the rows there are. *)
Definition button_text_ok (s : EMSCEditor) : Prop :=
  range_button s
  = (if Nat.eqb (length (ranges_box s)) 0 then "Select Region" else "Add Region").

(** The rows and what every line edit holds as position are as they were. *)
Definition same_positions (fr fr' : frame) : Prop :=
  ranges_box (self fr') = ranges_box (self fr) /\
  range_button (self fr') = range_button (self fr) /\
  forall w, position (widget (self fr') w) = position (widget (self fr) w).

(** The three options and [user_changed] are as they were. *)
Definition same_settings (fr fr' : frame) : Prop :=
  order (self fr') = order (self fr) /\
  scaling (self fr') = scaling (self fr) /\
  output_model (self fr') = output_model (self fr) /\
  user_changed (self fr') = user_changed (self fr).

(** The label and the visibility of the reference curve are as they were. *)
Definition same_display (fr fr' : frame) : Prop :=
  reference_info (self fr') = reference_info (self fr) /\
  reference_curve_visible (self fr') = reference_curve_visible (self fr).

(** What [update_reference_info] shows for the reference and the scaling of
    the editor. *)
Definition reference_shown (s : EMSCEditor) : Prop :=
  match reference s with
  | Some t =>
      match length (rows t) with
      | O =>
          reference_info s = ("Reference: missing!", "color: red") /\
          reference_curve_visible s = VBool false
      | 1%nat =>
          reference_info s = ("Reference: 1 spectrum", "color: black") /\
          reference_curve_visible s = scaling s
      | n =>
          reference_info s
          = ("Reference: mean of " +:+ pretty n +:+ " spectra", "color: black") /\
          reference_curve_visible s = scaling s
      end
  | None =>
      reference_info s = ("Reference: missing!", "color: red") /\
      reference_curve_visible s = VBool false
  end.

(** An operation that sets [user_changed]: [setParameters] with a mapping
    that has an entry. *)
Definition sets_user_changed (op : operation) : bool :=
  match op with
  | OpSetParameters p => negb (Nat.eqb (size p) 0)
  | _ => false
  end.

(** Both positions of a row convert with [float()]. *)
Definition converts (r : value * value) : Prop :=
  is_ok (py_float r.1) = true /\ is_ok (py_float r.2) = true.

(** The editor after [set_default] on the line edits of the rows [l]. *)
Definition defaults_written (pmin pmax : value) (l : list hbox) (s : EMSCEditor)
    : EMSCEditor :=
  foldl (fun s b => write_default (maxe b) pmax (write_default (mine b) pmin s)) s l.

(** An editor of which [P] held still satisfies [P]. *)
Definition keeps (P : EMSCEditor -> Prop) (fr fr' : frame) : Prop :=
  P (self fr) -> P (self fr').

(** The options of an editor are values that their controls hold. *)
Definition valid_editor_options (s : EMSCEditor) : Prop :=
  spin_value (order s) /\ bool_value (scaling s) /\ bool_value (output_model s).

(** Every entry of [ranges] that unpacks into three values has floats for
    the first two, the positions. *)
Definition float_where_triple (ranges : value) : Prop :=
  forall items, py_iter ranges = Ok items ->
    Forall (fun item => forall a b c, unpack3 item = Ok (a, b, c) ->
              exists fa fb, a = VFloat fa /\ b = VFloat fb) items.

End Editor.

(** ** A setting and inputs to run the editor on *)

(** The weight table is stood for by the ranges it is made from, and the
    conversion raises what going through the entries and unpacking each into
    three values raises; without preview data the limits are 0 and 1. *)
Definition plain_setting : External.
Proof.
  refine
    {| REFERENCE_DATA_PARAM := "_reference_data";
       weight_table := value;
       ranges_to_weight_table := fun ranges => ranges;
       ranges_to_weight_table_raises := fun ranges =>
         match py_iter ranges with
         | Ok items =>
             match unpack_entries items with
             | Ok _ => None
             | Raise e => Some e
             end
         | Raise e => Some e
         end;
       ranges_to_weight_table_float_triples := _;
       preview_min_max := fun _ => (VFloat 0, VFloat 1);
       XPosLineEdit_new := {| position := VInt 0; default_value := VNone |};
       float_of_str := fun _ => None |}.
  intros rs. simpl. induction rs as [|r rs IH]; [reflexivity | exact IH].
Defined.

(** [{"ranges": [[1.0, 2.0, 2.0]]}] *)
Definition weighted_params : gmap string value :=
  {[ "ranges" := VList [VList [VFloat 1; VFloat 2; VFloat 2]] ]}.


(** [{"ranges": None}] *)
Definition none_ranges_params : gmap string value :=
  {[ "ranges" := VNone ]}.

(** [{"ranges": [[1.0, 2.0]]}] *)
Definition short_entry_params : gmap string value :=
  {[ "ranges" := VList [VList [VFloat 1; VFloat 2]] ]}.

(** [{"order": 15}] *)
Definition order_15_params : gmap string value :=
  {[ "order" := VInt 15 ]}.

(** A reference of one spectrum over two wavenumbers. *)
Definition one_spectrum : Table :=
  {| domain := ["1000.0"; "1001.0"]; rows := [[1%float; 2%float]] |}.

(** [{"ranges": [[1.0, 2.0]], "_reference_data": one_spectrum}] *)
Definition short_entry_reference_params : gmap string value :=
  <["ranges" := VList [VList [VFloat 1; VFloat 2]]]>
    {[ "_reference_data" := VTable one_spectrum ]}.

(** [{"order": 3, "scaling": False, "ranges": [[1.0, 2.0, 1.0]],
      "_reference_data": one_spectrum}] *)
Definition full_params : gmap string value :=
  <["order" := VInt 3]>
    (<["scaling" := VBool false]>
      (<["ranges" := VList [VList [VFloat 1; VFloat 2; VFloat 1]]]>
        {[ "_reference_data" := VTable one_spectrum ]})).

(** [{"ranges": [[5.0, 6.0, 1.0], [7.0, 8.0, 1.0]]}] *)
Definition two_ranges_params : gmap string value :=
  {[ "ranges" := VList [VList [VFloat 5; VFloat 6; VFloat 1];
                        VList [VFloat 7; VFloat 8; VFloat 1]] ]}.

(** An editor with two rows, at 5 to 6 and at 7 to 8. *)
Definition two_rows : EMSCEditor :=
  {| reference := None; preview_data := None;
     order := VInt 2; scaling := VBool true; output_model := VBool false;
     user_changed := true;
     reference_info := ("Reference: missing!", "color: red");
     reference_curve_visible := VBool false;
     range_button := "Add Region";
     ranges_box := [{| mine := 0; maxe := 1 |}; {| mine := 2; maxe := 3 |}];
     widgets :=
       [{| position := VFloat 5; default_value := VFloat 0 |};
        {| position := VFloat 6; default_value := VFloat 1 |};
        {| position := VFloat 7; default_value := VFloat 0 |};
        {| position := VFloat 8; default_value := VFloat 1 |}] |}.

(** [{"ranges": [[1.0, 2.0, 1.0], [3.0]]}] *)
Definition second_entry_short_params : gmap string value :=
  {[ "ranges" := VList [VList [VFloat 1; VFloat 2; VFloat 1]; VList [VFloat 3]] ]}.

(** What [parameters()] returns on [two_rows]. *)
Definition two_rows_parameters : gmap string value :=
  parameters_of two_rows
    [VList [VFloat 5; VFloat 6; VFloat 1]; VList [VFloat 7; VFloat 8; VFloat 1]].

(** ** Properties *)

Section Properties.
Context `{External}.

(** *** Stability *)

Lemma stable_ret R `{!Reflexive R} {A} (a : A) : stable R (ret a).
Proof. intros fr. reflexivity. Qed.

Lemma stable_lift R `{!Reflexive R} {A} (r : result A) : stable R (lift r).
Proof. intros fr. reflexivity. Qed.

Lemma stable_get_self R `{!Reflexive R} : stable R get_self.
Proof. intros fr. reflexivity. Qed.

Lemma stable_params_get R `{!Reflexive R} key dflt : stable R (params_get key dflt).
Proof. intros fr. reflexivity. Qed.

Lemma stable_params_truth R `{!Reflexive R} : stable R params_truth.
Proof. intros fr. reflexivity. Qed.

Lemma stable_bind R `{!Transitive R} {A B} (m : M A) (k : A -> M B) :
  stable R m -> (forall a, stable R (k a)) -> stable R (bind m k).
Proof.
  intros Hm Hk fr. unfold bind. specialize (Hm fr).
  destruct (m fr) as [[a|e] fr']; simpl in *; [|done].
  etrans; [exact Hm | apply Hk].
Qed.

Lemma stable_for_each R `{!PreOrder R} {A} (l : list A) (body : A -> M unit) :
  (forall x, stable R (body x)) -> stable R (for_each l body).
Proof.
  intros Hb. induction l as [|x l IH]; simpl.
  - apply stable_ret, _.
  - apply stable_bind; [apply _ | apply Hb | intros _; apply IH].
Qed.

Lemma stable_modify_self R (f : EMSCEditor -> EMSCEditor) :
  (forall s p, R {| self := s; params := p |} {| self := f s; params := p |}) ->
  stable R (modify_self f).
Proof. intros Hf [s p]. apply Hf. Qed.

Global Instance same_options_preorder : PreOrder same_options.
Proof.
  split; unfold same_options; [done |].
  intros x y z (?&?&?&?&?&?&?) (?&?&?&?&?&?&?). repeat split; congruence.
Qed.

Global Instance same_order_preorder : PreOrder same_order.
Proof. split; unfold same_order; [done | intros x y z; congruence]. Qed.

Global Instance rows_kept_preorder : PreOrder rows_kept.
Proof.
  split; unfold rows_kept.
  - intros x. reflexivity.
  - intros x y z Hxy Hyz. exact (transitivity Hxy Hyz).
Qed.

(** Decomposes a stability goal along the binds of the method. *)
Ltac stable_step :=
  first
    [ apply stable_ret; apply _
    | apply stable_lift; apply _
    | apply stable_get_self; apply _
    | apply stable_params_get; apply _
    | apply stable_params_truth; apply _
    | apply stable_bind; [apply _ | | intros ?]
    | apply stable_for_each; [apply _ | intros ?]
    | apply stable_modify_self; intros ? ? ].

Ltac stable_auto := repeat (stable_step || case_match); try done.

Lemma self_preview_min_max_stable R `{!PreOrder R} : stable R self_preview_min_max.
Proof. unfold self_preview_min_max. stable_auto. Qed.

(** *** The line edits of the rows *)

Lemma widget_write_position_eq s w v :
  (w < length (widgets s))%nat ->
  position (widget (write_position w v s) w) = v.
Proof.
  intros Hw. unfold widget, write_position. simpl.
  destruct (lookup_lt_is_Some_2 (widgets s) w Hw) as [x Hx].
  by rewrite list_lookup_alter_eq, Hx.
Qed.

Lemma widget_write_position_ne s w w' v :
  w <> w' -> widget (write_position w v s) w' = widget s w'.
Proof.
  intros Hne. unfold widget, write_position. simpl.
  by rewrite list_lookup_alter_ne.
Qed.

Lemma line_edits_cons b l : line_edits (b :: l) = mine b :: maxe b :: line_edits l.
Proof. reflexivity. Qed.

Lemma line_edits_app l l' : line_edits (l ++ l') = line_edits l ++ line_edits l'.
Proof. unfold line_edits. apply flat_map_app. Qed.

Lemma line_edits_lookup l i b :
  l !! i = Some b -> mine b ∈ line_edits l /\ maxe b ∈ line_edits l.
Proof.
  revert i. induction l as [|b0 l IH]; intros [|i] Hi;
    try rewrite line_edits_cons; simplify_eq/=.
  - split; [left | right; left].
  - destruct (IH _ Hi). split; by do 2 right.
Qed.

Lemma line_edits_distinct l i j b b' :
  NoDup (line_edits l) -> l !! i = Some b -> l !! j = Some b' -> i <> j ->
  mine b <> mine b' /\ mine b <> maxe b' /\ maxe b <> mine b' /\ maxe b <> maxe b'.
Proof.
  revert i j. induction l as [|b0 l IH]; intros i j Hnd Hi Hj Hij; [done|].
  rewrite line_edits_cons in Hnd.
  apply NoDup_cons in Hnd as [Hm Hnd]. apply NoDup_cons in Hnd as [Hx Hnd].
  destruct i as [|i], j as [|j]; simplify_eq/=.
  - destruct (line_edits_lookup _ _ _ Hj).
    apply not_elem_of_cons in Hm as [? ?]. repeat split; congruence.
  - destruct (line_edits_lookup _ _ _ Hi).
    apply not_elem_of_cons in Hm as [? ?]. repeat split; congruence.
  - eapply IH; eauto.
Qed.

Lemma line_edits_mine_maxe l i b :
  NoDup (line_edits l) -> l !! i = Some b -> mine b <> maxe b.
Proof.
  revert i. induction l as [|b0 l IH]; intros i Hnd Hi; [done|].
  rewrite line_edits_cons in Hnd.
  apply NoDup_cons in Hnd as [Hm Hnd]. apply NoDup_cons in Hnd as [Hx Hnd].
  destruct i as [|i]; simplify_eq/=.
  - by apply not_elem_of_cons in Hm as [? ?].
  - eapply IH; eauto.
Qed.

Lemma range_positions_lookup s i :
  range_positions s !! i = row_positions s <$> ranges_box s !! i.
Proof. unfold range_positions. apply list_lookup_fmap. Qed.

(** Writing the two line edits of row [i] changes what row [i] shows, and
    nothing else. *)
Lemma range_positions_write_row s i b x y :
  well_formed s -> ranges_box s !! i = Some b ->
  range_positions (write_position (maxe b) y (write_position (mine b) x s))
  = <[i := (x, y)]> (range_positions s).
Proof.
  intros [Hnd Hlt] Hi.
  destruct (line_edits_lookup _ _ _ Hi) as [Hm Hx].
  rewrite Forall_forall in Hlt.
  pose proof (line_edits_mine_maxe _ _ _ Hnd Hi) as Hne.
  apply list_eq. intros j.
  destruct (decide (i = j)) as [<-|Hij].
  - rewrite list_lookup_insert_eq.
    2:{ unfold range_positions. rewrite length_map. by eapply lookup_lt_Some. }
    rewrite range_positions_lookup. simpl. rewrite Hi. simpl. f_equal.
    unfold row_positions. f_equal.
    + rewrite widget_write_position_ne by done.
      apply widget_write_position_eq. by apply Hlt.
    + apply widget_write_position_eq. unfold write_position. simpl.
      rewrite length_alter. by apply Hlt.
  - rewrite list_lookup_insert_ne by done.
    rewrite !range_positions_lookup. simpl.
    destruct (ranges_box s !! j) as [b'|] eqn:Hj; [|done]. simpl. f_equal.
    destruct (line_edits_distinct _ _ _ _ _ Hnd Hi Hj Hij) as (?&?&?&?).
    unfold row_positions. by rewrite !widget_write_position_ne.
Qed.

Lemma well_formed_write_position s w v :
  well_formed s -> well_formed (write_position w v s).
Proof.
  intros [Hnd Hlt]. split; [done|]. simpl. by rewrite length_alter.
Qed.

Lemma well_formed_write_default s w v :
  well_formed s -> well_formed (write_default w v s).
Proof.
  intros [Hnd Hlt]. split; [done|]. simpl. by rewrite length_alter.
Qed.


(** [add_range_selection_ui] makes two line edits and a row for them at the
    end of [ranges_box]. *)
Lemma add_range_selection_ui_run s p :
  let b := {| mine := length (widgets s); maxe := S (length (widgets s)) |} in
  exists s',
    add_range_selection_ui {| self := s; params := p |}
    = (Ok b, {| self := s'; params := p |}) /\
    ranges_box s' = ranges_box s ++ [b] /\
    (exists w1 w2, widgets s' = widgets s ++ [w1; w2]).
Proof.
  intros b.
  unfold add_range_selection_ui, self_preview_min_max, new_XPosLineEdit,
    set_default, _set_button_text, bind, get_self, modify_self, ret. simpl.
  destruct (preview_min_max (preview_data s)) as [pmin pmax]. simpl.
  rewrite length_app. simpl. rewrite Nat.add_1_r.
  eexists. split; [reflexivity|]. split; [reflexivity|]. simpl.
  rewrite <- (assoc_L (++)). simpl.
  rewrite (alter_app_r_alt _ _ _ (length (widgets s))) by lia.
  rewrite Nat.sub_diag. simpl.
  rewrite (alter_app_r_alt _ _ _ (S (length (widgets s)))) by lia.
  replace (S (length (widgets s)) - length (widgets s))%nat with 1%nat by lia.
  simpl. eauto.
Qed.


Lemma row_positions_widgets_app s s' l b :
  widgets s' = widgets s ++ l ->
  (mine b < length (widgets s))%nat -> (maxe b < length (widgets s))%nat ->
  row_positions s' b = row_positions s b.
Proof.
  intros Hw Hm Hx. unfold row_positions, widget.
  by rewrite Hw, !lookup_app_l.
Qed.

Lemma well_formed_new_row s s' w1 w2 :
  let b := {| mine := length (widgets s); maxe := S (length (widgets s)) |} in
  well_formed s ->
  ranges_box s' = ranges_box s ++ [b] ->
  widgets s' = widgets s ++ [w1; w2] ->
  well_formed s'.
Proof.
  intros b [Hnd Hlt] Hr Hw. unfold well_formed.
  rewrite Hr, Hw, line_edits_app, length_app. simpl.
  rewrite Forall_forall in Hlt. split.
  - apply NoDup_app. split; [done|]. split.
    + intros w Hin Hnew. apply Hlt in Hin.
      apply elem_of_cons in Hnew as [->|Hnew]; [lia|].
      apply list_elem_of_singleton in Hnew as ->. lia.
    + apply NoDup_cons. split; [|apply NoDup_singleton].
      intros Hin. apply list_elem_of_singleton in Hin. lia.
  - apply Forall_app. split.
    + apply Forall_forall. intros w Hin. apply Hlt in Hin. lia.
    + repeat constructor; lia.
Qed.

(** Writing the two line edits of a row just added shows one more row. *)
Lemma range_positions_new_row s s' w1 w2 x y :
  let b := {| mine := length (widgets s); maxe := S (length (widgets s)) |} in
  well_formed s ->
  ranges_box s' = ranges_box s ++ [b] ->
  widgets s' = widgets s ++ [w1; w2] ->
  range_positions (write_position (maxe b) y (write_position (mine b) x s'))
  = range_positions s ++ [(x, y)].
Proof.
  intros b Hwf Hr Hw.
  pose proof (well_formed_new_row s s' w1 w2 Hwf Hr Hw) as Hwf'.
  assert (ranges_box s' !! length (ranges_box s) = Some b) as Hb.
  { rewrite Hr. by apply list_lookup_middle. }
  rewrite (range_positions_write_row s' _ b x y Hwf' Hb).
  unfold range_positions. rewrite Hr, map_app. simpl.
  replace (length (ranges_box s)) with
    (length (map (row_positions s') (ranges_box s)) + 0)%nat
    by (rewrite length_map; lia).
  rewrite insert_app_r. simpl. f_equal.
  apply map_ext_in. intros b' Hin.
  destruct Hwf as [_ Hlt]. rewrite Forall_forall in Hlt.
  apply list_elem_of_In, list_elem_of_lookup in Hin as [j Hj].
  destruct (line_edits_lookup _ _ _ Hj).
  eapply row_positions_widgets_app; eauto.
Qed.


Lemma _set_range_parameters_loop_cons rw i r rest fr :
  _set_range_parameters_loop rw i (range_entry r :: rest) fr
  = bind (if Nat.leb (length rw) i
          then bind add_range_selection_ui (fun lw => ret (_extract_pair lw))
          else ret (rw !!! i))
      (fun pair =>
         bind (set_position pair.1 r.1.1) (fun _ =>
         bind (set_position pair.2 r.1.2) (fun _ =>
         _set_range_parameters_loop rw (S i) rest))) fr.
Proof. destruct r as [[a b] w]. reflexivity. Qed.

(** The loop of [_set_range_parameters] on entries that are triples: it
    returns, and the rows then show [positions_after]. *)
Lemma _set_range_parameters_loop_run rw rs : forall i s p,
  well_formed s ->
  rw `prefix_of` map _extract_pair (ranges_box s) ->
  exists s',
    _set_range_parameters_loop rw i (map range_entry rs) {| self := s; params := p |}
    = (Ok tt, {| self := s'; params := p |}) /\
    well_formed s' /\
    range_positions s' = positions_after (length rw) i rs (range_positions s).
Proof.
  induction rs as [|r rs IH]; intros i s p Hwf Hpre.
  - exists s. done.
  - rewrite map_cons, _set_range_parameters_loop_cons. simpl positions_after.
    destruct (Nat.leb (length rw) i) eqn:Hi.
    + destruct (add_range_selection_ui_run s p) as (s1 & Hrun & Hr & w1 & w2 & Hw).
      unfold bind at 1 2. rewrite Hrun. simpl.
      set (b := {| mine := length (widgets s); maxe := S (length (widgets s)) |}) in *.
      set (s2 := write_position (maxe b) r.1.2 (write_position (mine b) r.1.1 s1)).
      destruct (IH (S i) s2 p) as (s' & Hloop & Hwf' & Hpos).
      { apply well_formed_write_position, well_formed_write_position.
        by eapply well_formed_new_row. }
      { unfold s2. simpl. rewrite Hr, map_app. by apply prefix_app_r. }
      exists s'. split; [exact Hloop|]. split; [done|].
      rewrite Hpos. f_equal. unfold s2.
      rewrite (range_positions_new_row s s1 w1 w2) by done.
      by destruct r as [[? ?] ?].
    + apply Nat.leb_gt in Hi.
      destruct (lookup_lt_is_Some_2 rw i Hi) as [pr Hpr].
      assert (exists b, ranges_box s !! i = Some b /\ _extract_pair b = pr)
        as (b & Hb & Heq).
      { pose proof (prefix_lookup_Some _ _ _ _ Hpr Hpre) as Hl.
        rewrite list_lookup_fmap in Hl.
        destruct (ranges_box s !! i) as [b|]; simplify_eq/=. eauto. }
      rewrite (list_lookup_total_correct _ _ _ Hpr).
      unfold bind at 1. simpl.
      set (s2 := write_position pr.2 r.1.2 (write_position pr.1 r.1.1 s)).
      destruct (IH (S i) s2 p) as (s' & Hloop & Hwf' & Hpos).
      { by apply well_formed_write_position, well_formed_write_position. }
      { done. }
      exists s'. split; [exact Hloop|]. split; [done|].
      rewrite Hpos. f_equal. unfold s2. subst pr. simpl.
      rewrite (range_positions_write_row s i b) by done.
      by destruct r as [[? ?] ?].
Qed.


Lemma positions_after_spec n rs : forall i v,
  length v = Nat.max n i ->
  positions_after n i rs v
  = take i v ++ map fst rs ++ drop (i + length rs) v.
Proof.
  induction rs as [|r rs IH]; intros i v Hlen; simpl.
  - rewrite Nat.add_0_r. by rewrite take_drop.
  - destruct (Nat.leb n i) eqn:Hi.
    + apply Nat.leb_le in Hi.
      rewrite IH by (rewrite length_app; simpl; lia).
      rewrite !take_ge, !drop_ge by (rewrite ?length_app; simpl; lia).
      by rewrite <- (assoc_L (++)).
    + apply Nat.leb_gt in Hi.
      rewrite IH by (rewrite length_insert; lia).
      rewrite (take_S_r _ _ r.1) by (apply list_lookup_insert_eq; lia).
      rewrite take_insert_ge by lia.
      rewrite drop_insert_lt by lia.
      rewrite <- (assoc_L (++)). simpl. repeat f_equal. lia.
Qed.

Lemma positions_after_from_start rs v :
  positions_after (length v) 0 rs v = map fst rs ++ drop (length rs) v.
Proof. rewrite positions_after_spec by lia. by rewrite take_0. Qed.

Lemma range_positions_length s : length (range_positions s) = length (ranges_box s).
Proof. unfold range_positions. apply length_map. Qed.

Lemma update_reference_info_run s p :
  exists s',
    update_reference_info {| self := s; params := p |}
    = (Ok tt, {| self := s'; params := p |}) /\
    ranges_box s' = ranges_box s /\ widgets s' = widgets s /\
    order s' = order s /\ scaling s' = scaling s /\
    output_model s' = output_model s /\ user_changed s' = user_changed s.
Proof.
  unfold update_reference_info, bind, get_self. simpl.
  destruct (reference s) as [t|]; [destruct (Nat.eqb (length (rows t)) 0)|];
    simpl; eauto 10.
Qed.

Lemma well_formed_same_ranges s s' :
  ranges_box s' = ranges_box s -> widgets s' = widgets s ->
  well_formed s -> well_formed s'.
Proof. unfold well_formed. by intros -> ->. Qed.

Lemma range_positions_same_ranges s s' :
  ranges_box s' = ranges_box s -> widgets s' = widgets s ->
  range_positions s' = range_positions s.
Proof.
  unfold range_positions, row_positions, widget. by intros -> ->.
Qed.

Lemma _set_range_parameters_run s p rs :
  well_formed s ->
  default (VList []) (p !! "ranges") = VList (map range_entry rs) ->
  exists s',
    _set_range_parameters {| self := s; params := p |}
    = (Ok tt, {| self := s'; params := p |}) /\
    well_formed s' /\
    range_positions s'
    = map fst rs ++ drop (length rs) (range_positions s).
Proof.
  intros Hwf Hr.
  destruct (_set_range_parameters_loop_run (map _extract_pair (ranges_box s)) rs
              0 s p Hwf) as (s' & Hloop & Hwf' & Hpos); [done|].
  exists s'. split; [|split; [done|]].
  - unfold _set_range_parameters, bind, params_get, _range_widgets, get_self,
      lift, ret. simpl. rewrite Hr. simpl. exact Hloop.
  - rewrite Hpos, length_map, <- range_positions_length.
    apply positions_after_from_start.
Qed.


(** *** [parameters] *)

Lemma dict_append_ranges (d : gmap string value) acc x :
  d !! "ranges" = Some (VList acc) ->
  dict_append "ranges" x d = <["ranges" := VList (acc ++ [x])]> d.
Proof.
  intros Hd. unfold dict_append. apply map_eq. intros k.
  rewrite lookup_alter, lookup_insert. case_decide; [|done].
  by rewrite Hd.
Qed.

Lemma parameters_loop_run bs : forall (d : gmap string value) acc fr,
  d !! "ranges" = Some (VList acc) ->
  parameters_loop (map _extract_pair bs) d fr
  = (match ranges_of_positions (map (row_positions (self fr)) bs) with
     | Ok l => Ok (<["ranges" := VList (acc ++ l)]> d)
     | Raise e => Raise e
     end, fr).
Proof.
  induction bs as [|b bs IH]; intros d acc fr Hd; simpl.
  - rewrite app_nil_r. by rewrite insert_id.
  - unfold bind, get_position, get_self, lift, ret. simpl.
    fold (widget (self fr) (mine b)). fold (widget (self fr) (maxe b)).
    destruct (py_float (position (widget (self fr) (mine b)))) as [fa|e]; [|done].
    destruct (py_float (position (widget (self fr) (maxe b)))) as [fb|e]; [|done].
    rewrite (IH _ (acc ++ [output_entry (fa, fb)])).
    2:{ rewrite (dict_append_ranges d acc) by done. apply lookup_insert_eq. }
    destruct (ranges_of_positions (map (row_positions (self fr)) bs)); [|done].
    rewrite (dict_append_ranges d acc) by done.
    by rewrite insert_insert_eq, <- (assoc_L (++)).
Qed.

(** [parameters()] reads the rows and leaves the frame as it was. *)
Lemma parameters_run fr :
  parameters fr
  = (match ranges_of_positions (range_positions (self fr)) with
     | Ok l => Ok (parameters_of (self fr) l)
     | Raise e => Raise e
     end, fr).
Proof.
  unfold parameters, super_parameters, _range_widgets, bind, get_self, ret.
  simpl. rewrite (parameters_loop_run _ _ []) by apply lookup_insert_eq.
  unfold range_positions.
  destruct (ranges_of_positions _); [|done].
  unfold parameters_of. by rewrite insert_insert_eq.
Qed.

Lemma ranges_of_positions_floats (l : list (float * float)) :
  ranges_of_positions (map (fun r => (VFloat r.1, VFloat r.2)) l)
  = Ok (map output_entry l).
Proof.
  induction l as [|[a b] l IH]; simpl; [done|]. by rewrite IH.
Qed.
(** *** What the methods leave unchanged *)

Lemma _set_range_parameters_loop_stable R `{!PreOrder R} rw :
  (forall w v, stable R (set_position w v)) ->
  stable R add_range_selection_ui ->
  forall ranges i, stable R (_set_range_parameters_loop rw i ranges).
Proof.
  intros Hp Ha. induction ranges as [|item rest IH]; intros i; simpl.
  - apply stable_ret, _.
  - apply stable_bind; [apply _ | apply stable_lift, _ |].
    intros [[rmin rhigh] weight].
    apply stable_bind; [apply _ | |].
    { destruct (Nat.leb (length rw) i); [|apply stable_ret, _].
      apply stable_bind; [apply _ | done |]. intros ?. apply stable_ret, _. }
    intros pair.
    apply stable_bind; [apply _ | done |]. intros _.
    apply stable_bind; [apply _ | done |]. intros _. apply IH.
Qed.

Lemma _set_range_parameters_stable R `{!PreOrder R} :
  (forall w v, stable R (set_position w v)) ->
  stable R add_range_selection_ui ->
  stable R _set_range_parameters.
Proof.
  intros Hp Ha. unfold _set_range_parameters, _range_widgets.
  stable_auto. by apply _set_range_parameters_loop_stable.
Qed.

Lemma add_range_selection_ui_same_options : stable same_options add_range_selection_ui.
Proof. unfold add_range_selection_ui. stable_auto. Qed.

Lemma _set_range_parameters_same_options : stable same_options _set_range_parameters.
Proof.
  apply _set_range_parameters_stable; [apply _ | | apply add_range_selection_ui_same_options].
  intros w v. unfold set_position. stable_auto.
Qed.

Lemma update_reference_info_same_options : stable same_options update_reference_info.
Proof. unfold update_reference_info. stable_auto. Qed.

(** *** [setParameters] *)

Lemma setParameters_unfold p s :
  call setParameters p s
  = bind _set_range_parameters (fun _ => update_reference_info)
      {| self := assign_options p s; params := p |}.
Proof.
  unfold call, setParameters, assign_options.
  unfold bind at 1 2 3 4 5 6 7 8, params_truth, params_get, modify_self. simpl.
  destruct (negb (Nat.eqb (size p) 0)); reflexivity.
Qed.

Lemma setParameters_same_options p s :
  same_options {| self := assign_options p s; params := p |}
    (call setParameters p s).2.
Proof.
  rewrite setParameters_unfold.
  apply (stable_bind same_options).
  - apply _set_range_parameters_same_options.
  - intros _. apply update_reference_info_same_options.
Qed.


(** *** [_compute_weights] and [createinstance] *)

Lemma _compute_weights_run fr :
  _compute_weights fr = (weights_of (params fr), fr).
Proof.
  unfold _compute_weights, weights_of, bind, params_get, lift, ret,
    call_ranges_to_weight_table.
  simpl. destruct (py_truth _); [|done].
  by destruct (ranges_to_weight_table_raises _).
Qed.

Lemma createinstance_run fr :
  createinstance fr
  = (match weights_of (params fr) with
     | Ok weights =>
         Ok (let reference := default VNone (params fr !! REFERENCE_DATA_PARAM) in
             if is_None reference
             then Lambda (fun data => Table_getslice data 0)
             else EMSC reference weights
                    (default ORDER_DEFAULT (params fr !! "order"))
                    (default SCALING_DEFAULT (params fr !! "scaling"))
                    (default OUTPUT_MODEL_DEFAULT (params fr !! "output_model")))
     | Raise e => Raise e
     end, fr).
Proof.
  unfold createinstance. unfold bind at 1 2 3 4, params_get at 1 2 3. simpl.
  rewrite _compute_weights_run. simpl.
  destruct (weights_of (params fr)) as [weights|e]; [|done].
  unfold bind, params_get, ret. simpl. by destruct (is_None _).
Qed.

(** On a list of triples of floats the conversion returns. *)
Lemma weights_of_float_triples p (rs : list (float * float * float)) :
  p !! "ranges"
  = Some (VList (map (fun r => VList [VFloat r.1.1; VFloat r.1.2; VFloat r.2]) rs)) ->
  weights_of p
  = Ok (if Nat.eqb (length rs) 0 then None
        else Some (ranges_to_weight_table
                     (VList (map (fun r => VList [VFloat r.1.1; VFloat r.1.2; VFloat r.2])
                               rs)))).
Proof.
  intros Hr. unfold weights_of. rewrite Hr. simpl.
  rewrite ranges_to_weight_table_float_triples, length_map.
  by destruct (Nat.eqb (length rs) 0).
Qed.

(** C2, amended: when [params] has no reference data, or [None] for it, and
    [_compute_weights(params)] returns, [createinstance(params)] returns a
    function that gives a table without rows for any data table; when
    [_compute_weights(params)] raises, which it does when the value of
    [ranges] is true in a condition and [ranges_to_weight_table] raises on
    it, [createinstance(params)] raises this error: the weights are computed
    before the reference is looked at.  With [ranges] missing
    [_compute_weights] returns. *)
Theorem createinstance_without_reference (p : gmap string value) (s : EMSCEditor) :
  p !! REFERENCE_DATA_PARAM = None \/ p !! REFERENCE_DATA_PARAM = Some VNone ->
  (forall weights, (call _compute_weights p s).1 = Ok weights ->
     exists f,
       (call createinstance p s).1 = Ok (Lambda f) /\
       forall data, rows (f data) = [] /\ domain (f data) = domain data) /\
  (forall e, (call _compute_weights p s).1 = Raise e ->
     (call createinstance p s).1 = Raise e) /\
  (p !! "ranges" = None -> (call _compute_weights p s).1 = Ok None).
Proof.
  intros Href. unfold call. rewrite createinstance_run, _compute_weights_run. simpl.
  split; [|split].
  - intros weights ->. eexists. split.
    + by destruct Href as [-> | ->].
    + intros data. simpl. by rewrite take_0.
  - by intros e ->.
  - intros Hn. unfold weights_of. by rewrite Hn.
Qed.

(** C3, amended: when [params] gives a reference that is not [None] and
    [_compute_weights(params)] returns, [createinstance(params)] returns the
    EMSC instance made with this reference, with the [order], [scaling] and
    [output_model] of [params] (2, [True] and [False] for the keys that are
    missing) and with the weights [_compute_weights(params)] returned; when
    [_compute_weights(params)] raises, [createinstance(params)] raises the
    same error.  With [ranges] missing [_compute_weights] returns. *)
Theorem createinstance_with_reference (p : gmap string value) (s : EMSCEditor)
    (r : value) :
  p !! REFERENCE_DATA_PARAM = Some r -> r <> VNone ->
  (forall weights, (call _compute_weights p s).1 = Ok weights ->
     (call createinstance p s).1
     = Ok (EMSC r weights
             (default (VInt 2) (p !! "order"))
             (default (VBool true) (p !! "scaling"))
             (default (VBool false) (p !! "output_model")))) /\
  (forall e, (call _compute_weights p s).1 = Raise e ->
     (call createinstance p s).1 = Raise e) /\
  (p !! "ranges" = None -> (call _compute_weights p s).1 = Ok None).
Proof.
  intros Href Hr. unfold call. rewrite createinstance_run, _compute_weights_run.
  simpl. split; [|split].
  - intros weights ->. rewrite Href. simpl. by destruct r.
  - by intros e ->.
  - intros Hn. unfold weights_of. by rewrite Hn.
Qed.

(** C4, amended: [_compute_weights(params)] returns [None] exactly when the
    [ranges] key is missing or its value is false in a condition (an empty
    sequence, but also [None], [False] or 0).  For a value that is true in a
    condition it calls [ranges_to_weight_table] on it: it returns the table
    when the conversion returns, and raises what the conversion raises.  For
    a list, it returns [None] exactly when the list is empty. *)
Theorem _compute_weights_None_iff_falsy (p : gmap string value) (s : EMSCEditor) :
  ((call _compute_weights p s).1 = Ok None
   <-> p !! "ranges" = None \/
       exists v, p !! "ranges" = Some v /\ py_truth v = false) /\
  (forall v, p !! "ranges" = Some v -> py_truth v = true ->
     (call _compute_weights p s).1
     = match ranges_to_weight_table_raises v with
       | Some e => Raise e
       | None => Ok (Some (ranges_to_weight_table v))
       end) /\
  (forall l, p !! "ranges" = Some (VList l) ->
     (call _compute_weights p s).1 = Ok None <-> l = []).
Proof.
  unfold call. rewrite _compute_weights_run. unfold weights_of. simpl.
  destruct (p !! "ranges") as [v|] eqn:Hv; simpl.
  - split; [|split].
    + split.
      * intros Hw. right. exists v. split; [done|].
        destruct (py_truth v); [|done].
        by destruct (ranges_to_weight_table_raises v).
      * intros [?|(v' & ? & Hf)]; simplify_eq. by rewrite Hf.
    + intros v' ? Ht; simplify_eq. by rewrite Ht.
    + intros l ?; simplify_eq. simpl. destruct l; [done|]. simpl.
      by destruct (ranges_to_weight_table_raises _).
  - split; [|split]; [|done|done]. split; [by left | done].
Qed.

(** C9: [createinstance] is a function of [params] alone: called with the
    same mapping on any two editors it returns the same transform, and it
    leaves the editor and the mapping as they were. *)
Theorem createinstance_pure (fr1 fr2 : frame) :
  params fr1 = params fr2 ->
  (createinstance fr1).1 = (createinstance fr2).1 /\
  (createinstance fr1).2 = fr1 /\
  (createinstance fr2).2 = fr2.
Proof.
  intros Hp. rewrite !createinstance_run. simpl. by rewrite Hp.
Qed.

(** *** [setParameters] followed by [parameters] *)

Lemma well_formed_assign_options p s :
  well_formed s -> well_formed (assign_options p s).
Proof.
  unfold assign_options. by destruct (negb (Nat.eqb (size p) 0)).
Qed.

Lemma range_positions_assign_options p s :
  range_positions (assign_options p s) = range_positions s.
Proof.
  unfold assign_options. by destruct (negb (Nat.eqb (size p) 0)).
Qed.

(** On a mapping whose [ranges] are triples, [setParameters] returns; the
    rows then show the [min] and [max] of the entries, followed by what the
    rows beyond the entries showed before. *)
Lemma setParameters_run s p rs :
  well_formed s ->
  default (VList []) (p !! "ranges") = VList (map range_entry rs) ->
  exists s',
    call setParameters p s = (Ok tt, {| self := s'; params := p |}) /\
    well_formed s' /\
    range_positions s' = map fst rs ++ drop (length rs) (range_positions s).
Proof.
  intros Hwf Hr. rewrite setParameters_unfold.
  destruct (_set_range_parameters_run (assign_options p s) p rs)
    as (s1 & Hrun & Hwf1 & Hpos1); [by apply well_formed_assign_options | done |].
  destruct (update_reference_info_run s1 p) as (s' & Hrun' & Hb & Hw & _).
  exists s'. split; [|split].
  - unfold bind. by rewrite Hrun.
  - by eapply well_formed_same_ranges.
  - rewrite (range_positions_same_ranges s1 s') by done.
    by rewrite Hpos1, range_positions_assign_options.
Qed.

Lemma float_entries_as_range_entries (rs : list (float * float * value)) :
  map float_entry rs
  = map range_entry (map (fun r => (VFloat r.1.1, VFloat r.1.2, r.2)) rs).
Proof. by rewrite map_map. Qed.


Ltac rows_kept_auto :=
  stable_auto; unfold rows_kept; simpl; try reflexivity.

Lemma _set_range_parameters_rows_kept : stable rows_kept _set_range_parameters.
Proof.
  apply _set_range_parameters_stable; [apply _ | |].
  - intros w v. unfold set_position. rows_kept_auto.
  - unfold add_range_selection_ui. rows_kept_auto. by apply prefix_app_r.
Qed.

Lemma update_reference_info_rows_kept : stable rows_kept update_reference_info.
Proof. unfold update_reference_info. rows_kept_auto. Qed.

Lemma setParameters_rows_kept p s :
  ranges_box s `prefix_of` ranges_box (self (call setParameters p s).2).
Proof.
  rewrite setParameters_unfold.
  assert (ranges_box s = ranges_box (assign_options p s)) as ->.
  { unfold assign_options. by destruct (negb (Nat.eqb (size p) 0)). }
  apply (stable_bind rows_kept _set_range_parameters (fun _ => update_reference_info)
           _set_range_parameters_rows_kept (fun _ => update_reference_info_rows_kept)
           {| self := assign_options p s; params := p |}).
Qed.



(** *** The weight of the ranges [parameters] returns *)



(** *** When [setParameters] raises *)

Lemma returns_bind {A B} (m : M A) (k : A -> M B) :
  returns m -> (forall a, returns (k a)) -> returns (bind m k).
Proof.
  intros Hm Hk fr. unfold bind. destruct (Hm fr) as [a Ha].
  destruct (m fr) as [r fr']. simpl in Ha. subst r. apply Hk.
Qed.

Lemma add_range_selection_ui_returns : returns add_range_selection_ui.
Proof.
  intros [s p]. destruct (add_range_selection_ui_run s p) as (s' & Hrun & _).
  rewrite Hrun. eauto.
Qed.

Lemma update_reference_info_returns : returns update_reference_info.
Proof.
  intros [s p]. destruct (update_reference_info_run s p) as (s' & Hrun & _).
  rewrite Hrun. eauto.
Qed.

(** The loop raises what unpacking the entries raises, and nothing else. *)
Lemma _set_range_parameters_loop_result rw items : forall i fr,
  (_set_range_parameters_loop rw i items fr).1 = unpack_entries items.
Proof.
  induction items as [|item rest IH]; intros i fr; simpl; [done|].
  unfold bind at 1, lift. simpl.
  destruct (unpack3 item) as [[[rmin rhigh] weight]|e]; [|done].
  unfold bind at 1.
  assert (returns (if Nat.leb (length rw) i
                   then bind add_range_selection_ui (fun lw => ret (_extract_pair lw))
                   else ret (rw !!! i))) as Hpair.
  { destruct (Nat.leb (length rw) i).
    - apply returns_bind; [apply add_range_selection_ui_returns|].
      intros lw fr'. by exists (_extract_pair lw).
    - intros fr'. by exists (rw !!! i). }
  destruct (Hpair fr) as [pair Hp].
  destruct ((if Nat.leb (length rw) i
             then bind add_range_selection_ui (fun lw => ret (_extract_pair lw))
             else ret (rw !!! i)) fr) as [r fr1].
  simpl in Hp. subst r. unfold bind, set_position, modify_self. simpl. apply IH.
Qed.

(** [setParameters] raises when [ranges] cannot be gone through or one of its
    entries does not unpack into three values, and in no other case. *)
Lemma setParameters_result p s :
  (call setParameters p s).1
  = match py_iter (default (VList []) (p !! "ranges")) with
    | Ok items => unpack_entries items
    | Raise e => Raise e
    end.
Proof.
  rewrite setParameters_unfold. unfold bind at 1.
  destruct (_set_range_parameters {| self := assign_options p s; params := p |})
    as [r fr1] eqn:Hrun.
  assert (r = match py_iter (default (VList []) (p !! "ranges")) with
              | Ok items => unpack_entries items
              | Raise e => Raise e
              end) as Hr.
  { apply (f_equal fst) in Hrun. simpl in Hrun. rewrite <- Hrun.
    unfold _set_range_parameters, bind, params_get, _range_widgets, get_self,
      lift, ret. simpl.
    destruct (py_iter (default (VList []) (p !! "ranges"))) as [items|e]; [|done].
    apply _set_range_parameters_loop_result. }
  rewrite <- Hr. destruct r as [[]|e]; [|done].
  destruct (update_reference_info_returns fr1) as [[] Hu]. exact Hu.
Qed.

(** *** Mappings of the persisted shape *)




(** *** The range of [order] *)

Lemma step_order s op :
  order (step s op)
  = match op with
    | OpSetParameters p => default ORDER_DEFAULT (p !! "order")
    | OpSpinOrder v => VInt (Z.max 0 (Z.min 10 v))
    | _ => order s
    end.
Proof.
  destruct op; simpl.
  - destruct (setParameters_same_options p s) as (_&Ho&_). exact Ho.
  - unfold call. by rewrite parameters_run.
  - assert (stable same_order (set_reference_data r)) as Hst
      by (unfold set_reference_data, update_reference_info; stable_auto).
    apply (Hst {| self := s; params := ∅ |}).
  - assert (stable same_order (set_preview_data d)) as Hst.
    { unfold set_preview_data, self_preview_min_max, _range_widgets, set_default.
      stable_auto. }
    apply (Hst {| self := s; params := ∅ |}).
  - done.
  - done.
  - done.
  - done.
  - assert (stable same_order add_range_selection) as Hst.
    { unfold add_range_selection, add_range_selection_ui, self_preview_min_max,
        set_position. stable_auto. }
    apply (Hst {| self := s; params := ∅ |}).
  - done.
Qed.

Lemma foldl_step_order_in_range ops : forall s,
  order_in_range (order s) ->
  Forall order_key_in_range ops ->
  order_in_range (order (foldl step s ops)).
Proof.
  induction ops as [|op ops IH]; intros s Hs Hops; simpl; [done|].
  apply Forall_cons in Hops as [Hop Hops]. apply IH; [|done].
  rewrite step_order. destruct op; try done.
  - simpl in Hop. destruct (p !! "order") as [v|]; simpl.
    + by apply Hop.
    + exists 2. split; [done | lia].
  - eexists. split; [done | lia].
Qed.

(** C7, amended: after construction and any operations since
    ([setParameters], [parameters], edits through the controls) in which each
    mapping given to [setParameters] has no [order] or an integer from 0 to
    10 for it, the order of the editor is an integer from 0 to 10. *)
Theorem order_stays_in_range (ops : list operation) :
  Forall order_key_in_range ops ->
  order_in_range (order (run ops)).
Proof.
  intros Hops. unfold run. apply foldl_step_order_in_range; [|done].
  exists 2. split; [done | lia].
Qed.

(** *** Every editor the operations lead to is well formed *)

Global Instance keeps_well_formed_preorder : PreOrder keeps_well_formed.
Proof.
  split.
  - intros x Hx. exact Hx.
  - intros x y z Hxy Hyz Hx. exact (Hyz (Hxy Hx)).
Qed.

Ltac keeps_wf_auto :=
  stable_auto; unfold keeps_well_formed; simpl; try done.

Lemma set_position_keeps_well_formed w v :
  stable keeps_well_formed (set_position w v).
Proof.
  unfold set_position. keeps_wf_auto. apply well_formed_write_position.
Qed.

Lemma add_range_selection_ui_keeps_well_formed :
  stable keeps_well_formed add_range_selection_ui.
Proof.
  intros [s p] Hwf. simpl in Hwf.
  destruct (add_range_selection_ui_run s p) as (s' & Hrun & Hr & w1 & w2 & Hw).
  rewrite Hrun. simpl. by eapply well_formed_new_row.
Qed.

Lemma _set_range_parameters_keeps_well_formed :
  stable keeps_well_formed _set_range_parameters.
Proof.
  apply _set_range_parameters_stable; [apply _ | |].
  - apply set_position_keeps_well_formed.
  - apply add_range_selection_ui_keeps_well_formed.
Qed.

Lemma update_reference_info_keeps_well_formed :
  stable keeps_well_formed update_reference_info.
Proof. unfold update_reference_info. keeps_wf_auto. Qed.

Lemma line_edits_removeWidget box l w :
  w ∈ line_edits (removeWidget box l) -> w ∈ line_edits l.
Proof.
  induction l as [|b l IH]; cbn [removeWidget]; [done|].
  case_decide.
  - intros Hin. rewrite line_edits_cons. by do 2 right.
  - rewrite !line_edits_cons. intros Hin.
    apply elem_of_cons in Hin as [->|Hin]; [left|].
    apply elem_of_cons in Hin as [->|Hin]; [right; left|].
    do 2 right. by apply IH.
Qed.

Lemma NoDup_line_edits_removeWidget box l :
  NoDup (line_edits l) -> NoDup (line_edits (removeWidget box l)).
Proof.
  induction l as [|b l IH]; cbn [removeWidget]; [done|].
  rewrite line_edits_cons. intros Hnd.
  apply NoDup_cons in Hnd as [Hm Hnd]. apply NoDup_cons in Hnd as [Hx Hnd].
  case_decide; [done|]. rewrite line_edits_cons.
  apply not_elem_of_cons in Hm as [Hne Hm].
  apply NoDup_cons. split.
  - apply not_elem_of_cons. split; [done|].
    intros Hin. by apply Hm, (line_edits_removeWidget box).
  - apply NoDup_cons. split; [|by apply IH].
    intros Hin. by apply Hx, (line_edits_removeWidget box).
Qed.

Lemma well_formed_removeWidget box s :
  well_formed s -> well_formed (with_ranges_box (removeWidget box (ranges_box s)) s).
Proof.
  intros [Hnd Hlt]. split; simpl.
  - by apply NoDup_line_edits_removeWidget.
  - rewrite Forall_forall in *. intros w Hin.
    by apply Hlt, (line_edits_removeWidget box).
Qed.

Lemma step_well_formed s op : well_formed s -> well_formed (step s op).
Proof.
  intros Hwf. destruct op; simpl.
  - rewrite setParameters_unfold.
    apply (stable_bind keeps_well_formed _set_range_parameters
             (fun _ => update_reference_info)
             _set_range_parameters_keeps_well_formed
             (fun _ => update_reference_info_keeps_well_formed)
             {| self := assign_options p s; params := p |}).
    by apply well_formed_assign_options.
  - unfold call. by rewrite parameters_run.
  - assert (stable keeps_well_formed (set_reference_data r)) as Hst
      by (unfold set_reference_data, update_reference_info; keeps_wf_auto).
    by apply (Hst {| self := s; params := ∅ |}).
  - assert (stable keeps_well_formed (set_preview_data d)) as Hst.
    { unfold set_preview_data, self_preview_min_max, _range_widgets, set_default.
      keeps_wf_auto; apply well_formed_write_default. }
    by apply (Hst {| self := s; params := ∅ |}).
  - done.
  - done.
  - done.
  - by apply well_formed_write_position.
  - assert (stable keeps_well_formed add_range_selection) as Hst.
    { unfold add_range_selection.
      apply stable_bind; [apply _ | apply self_preview_min_max_stable, _ |].
      intros [pmin pmax].
      apply stable_bind; [apply _ | apply add_range_selection_ui_keeps_well_formed |].
      intros lw.
      apply stable_bind; [apply _ | apply set_position_keeps_well_formed |].
      intros _. apply set_position_keeps_well_formed. }
    by apply (Hst {| self := s; params := ∅ |}).
  - unfold call, delete_range, bind, _set_button_text, modify_self. simpl.
    by apply (well_formed_removeWidget box s).
Qed.

(** The hypothesis [well_formed] of the properties above holds of every
    editor: of a new one, and then after each operation, also one that raised. *)
Lemma run_well_formed ops : well_formed (run ops).
Proof.
  unfold run. assert (well_formed __init__) as Hinit by (split; constructor).
  revert Hinit. generalize __init__.
  induction ops as [|op ops IH]; intros s Hs; simpl; [done|].
  by apply IH, step_well_formed.
Qed.

(** *** More relations between the frames of a method *)

Global Instance keeps_preorder P : PreOrder (keeps P).
Proof.
  split.
  - intros x Hx. exact Hx.
  - intros x y z Hxy Hyz Hx. exact (Hyz (Hxy Hx)).
Qed.

Global Instance same_positions_preorder : PreOrder same_positions.
Proof.
  split.
  - intros x. by repeat split.
  - intros x y z (Hb & Ht & Hw) (Hb' & Ht' & Hw'). repeat split.
    + by rewrite Hb'.
    + by rewrite Ht'.
    + intros w. by rewrite Hw'.
Qed.

Global Instance same_settings_preorder : PreOrder same_settings.
Proof.
  split; unfold same_settings; [done|].
  intros x y z (?&?&?&?) (?&?&?&?). repeat split; congruence.
Qed.

Global Instance same_display_preorder : PreOrder same_display.
Proof.
  split; unfold same_display; [done|].
  intros x y z (?&?) (?&?). split; congruence.
Qed.

Ltac keeps_auto := stable_auto; unfold keeps; simpl; try done.

(** *** The text of the button *)

Lemma add_range_selection_ui_button_text fr :
  button_text_ok (self (add_range_selection_ui fr).2).
Proof.
  destruct fr as [s p].
  unfold add_range_selection_ui, self_preview_min_max, new_XPosLineEdit,
    set_default, _set_button_text, bind, get_self, modify_self, ret. simpl.
  destruct (preview_min_max (preview_data s)) as [pmin pmax]. reflexivity.
Qed.

Lemma set_position_keeps_button_text w v :
  stable (keeps button_text_ok) (set_position w v).
Proof. unfold set_position. keeps_auto. Qed.

Lemma _set_range_parameters_keeps_button_text :
  stable (keeps button_text_ok) _set_range_parameters.
Proof.
  apply _set_range_parameters_stable; [apply _ | |].
  - apply set_position_keeps_button_text.
  - intros fr _. apply add_range_selection_ui_button_text.
Qed.

Lemma button_text_ok_assign_options p s :
  button_text_ok s -> button_text_ok (assign_options p s).
Proof. unfold assign_options. by destruct (negb (Nat.eqb (size p) 0)). Qed.

Lemma step_button_text_ok s op : button_text_ok s -> button_text_ok (step s op).
Proof.
  intros Hs. destruct op; simpl.
  - rewrite setParameters_unfold.
    apply (stable_bind (keeps button_text_ok) _set_range_parameters
             (fun _ => update_reference_info)
             _set_range_parameters_keeps_button_text).
    + intros _. unfold update_reference_info. keeps_auto.
    + by apply button_text_ok_assign_options.
  - unfold call. by rewrite parameters_run.
  - assert (stable (keeps button_text_ok) (set_reference_data r)) as Hst
      by (unfold set_reference_data, update_reference_info; keeps_auto).
    by apply (Hst {| self := s; params := ∅ |}).
  - assert (stable (keeps button_text_ok) (set_preview_data d)) as Hst.
    { unfold set_preview_data, self_preview_min_max, _range_widgets, set_default.
      keeps_auto. }
    by apply (Hst {| self := s; params := ∅ |}).
  - done.
  - done.
  - done.
  - done.
  - unfold call, add_range_selection. unfold bind at 1.
    unfold self_preview_min_max at 1, bind at 1, get_self, ret. simpl.
    destruct (preview_min_max (preview_data s)) as [pmin pmax].
    unfold bind at 1.
    pose proof (add_range_selection_ui_button_text {| self := s; params := ∅ |}) as Hui.
    destruct (add_range_selection_ui {| self := s; params := ∅ |}) as [[lw|e] fr1];
      [|done].
    simpl in Hui. by unfold bind, set_position, modify_self.
  - reflexivity.
Qed.

(** X1: whatever operations an editor has gone through, its button reads
    "Select Region" when it has no range row and "Add Region" when it has
    one or more. *)
Theorem range_button_tells_rows (ops : list operation) :
  range_button (run ops)
  = (if Nat.eqb (length (ranges_box (run ops))) 0
     then "Select Region" else "Add Region").
Proof.
  unfold run. assert (button_text_ok __init__) as Hinit by reflexivity.
  revert Hinit. generalize __init__.
  induction ops as [|op ops IH]; intros s Hs; simpl; [exact Hs|].
  by apply IH, step_button_text_ok.
Qed.

(** *** The line edits of the rows of any editor *)

(** X2: whatever operations an editor has gone through, each of its rows has
    two line edits of its own: both exist, the one for the minimum is not
    the one for the maximum, and none belongs to another row. *)
Theorem rows_have_their_own_line_edits (ops : list operation) (i j : nat)
    (b b' : hbox) :
  ranges_box (run ops) !! i = Some b ->
  ranges_box (run ops) !! j = Some b' ->
  (mine b < length (widgets (run ops)))%nat /\
  (maxe b < length (widgets (run ops)))%nat /\
  mine b <> maxe b /\
  (i <> j ->
   mine b <> mine b' /\ mine b <> maxe b' /\ maxe b <> mine b' /\ maxe b <> maxe b').
Proof.
  intros Hi Hj. destruct (run_well_formed ops) as [Hnd Hlt].
  rewrite Forall_forall in Hlt.
  destruct (line_edits_lookup _ _ _ Hi) as [Hm Hx].
  split; [by apply Hlt|]. split; [by apply Hlt|].
  split; [by eapply line_edits_mine_maxe|].
  intros Hij. by eapply line_edits_distinct.
Qed.

(** *** Adding and deleting a row *)

Lemma add_range_selection_run s p :
  well_formed s ->
  let b := {| mine := length (widgets s); maxe := S (length (widgets s)) |} in
  exists s',
    call add_range_selection p s = (Ok tt, {| self := s'; params := p |}) /\
    ranges_box s' = ranges_box s ++ [b] /\
    range_positions s' = range_positions s ++ [preview_min_max (preview_data s)] /\
    well_formed s' /\
    button_text_ok s'.
Proof.
  intros Hwf b.
  destruct (add_range_selection_ui_run s p) as (s1 & Hrun & Hr & w1 & w2 & Hw).
  pose proof (add_range_selection_ui_button_text {| self := s; params := p |}) as Hbt.
  rewrite Hrun in Hbt. simpl in Hbt. fold b in Hrun, Hr.
  unfold call, add_range_selection. unfold bind at 1.
  unfold self_preview_min_max at 1, bind at 1, get_self, ret. simpl.
  destruct (preview_min_max (preview_data s)) as [pmin pmax] eqn:Hpmm.
  unfold bind at 1. rewrite Hrun.
  unfold bind, set_position, modify_self. simpl.
  eexists. split; [reflexivity|]. split; [exact Hr|]. split; [|split].
  - by apply (range_positions_new_row s s1 w1 w2).
  - apply well_formed_write_position, well_formed_write_position.
    by eapply well_formed_new_row.
  - exact Hbt.
Qed.

(** X3: [add_range_selection] returns and puts one row after the rows there
    are; the new row shows the minimum and maximum of the preview, the other
    rows show what they showed, and the button reads "Add Region". *)
Theorem add_range_selection_appends_row (s : EMSCEditor) (p : gmap string value) :
  well_formed s ->
  let r := call add_range_selection p s in
  r.1 = Ok tt /\
  range_positions (self r.2)
  = range_positions s ++ [preview_min_max (preview_data s)] /\
  length (ranges_box (self r.2)) = S (length (ranges_box s)) /\
  ranges_box s `prefix_of` ranges_box (self r.2) /\
  range_button (self r.2) = "Add Region" /\
  well_formed (self r.2).
Proof.
  intros Hwf r.
  destruct (add_range_selection_run s p Hwf) as (s' & Hrun & Hr & Hpos & Hwf' & Hbt).
  unfold r. rewrite Hrun. simpl.
  split; [done|]. split; [done|]. split; [|split; [|split; [|done]]].
  - rewrite Hr, length_app. simpl. lia.
  - rewrite Hr. by apply prefix_app_r.
  - unfold button_text_ok in Hbt. rewrite Hbt, Hr, length_app. simpl.
    by rewrite Nat.add_1_r.
Qed.

Lemma removeWidget_lookup l : forall i b,
  NoDup (line_edits l) -> l !! i = Some b -> removeWidget b l = delete i l.
Proof.
  induction l as [|b0 l IH]; intros i b Hnd Hi; [done|].
  cbn [removeWidget]. destruct i as [|i]; simplify_eq/=.
  - by rewrite decide_True.
  - rewrite decide_False.
    + f_equal. apply IH; [|done].
      fold (line_edits l) in Hnd. by do 2 apply NoDup_cons_1_2 in Hnd.
    + intros ->.
      destruct (line_edits_distinct (b :: l) 0 (S i) b b) as (Hne & _); try done.
Qed.

Lemma removeWidget_absent l b : b ∉ l -> removeWidget b l = l.
Proof.
  induction l as [|b0 l IH]; intros Hb; [done|]. cbn [removeWidget].
  apply not_elem_of_cons in Hb as [Hne Hb].
  rewrite decide_False by done. f_equal. by apply IH.
Qed.

Lemma map_delete {A B} (f : A -> B) (l : list A) : forall i,
  map f (delete i l) = delete i (map f l).
Proof.
  induction l as [|x l IH]; intros [|i]; simpl; try done. by rewrite IH.
Qed.

Lemma delete_range_run b s p :
  call (delete_range b) p s
  = (Ok tt,
     {| self :=
          with_range_button
            (if Nat.eqb (length (removeWidget b (ranges_box s))) 0
             then "Select Region" else "Add Region")
            (with_ranges_box (removeWidget b (ranges_box s)) s);
        params := p |}).
Proof. reflexivity. Qed.

Lemma range_positions_with_rows t l s :
  range_positions (with_range_button t (with_ranges_box l s))
  = map (row_positions s) l.
Proof. reflexivity. Qed.

Lemma delete_range_at s p i b :
  well_formed s -> ranges_box s !! i = Some b ->
  ranges_box (self (call (delete_range b) p s).2) = delete i (ranges_box s) /\
  range_positions (self (call (delete_range b) p s).2) = delete i (range_positions s).
Proof.
  intros [Hnd _] Hi. rewrite delete_range_run. simpl.
  rewrite range_positions_with_rows.
  rewrite (removeWidget_lookup _ i b Hnd Hi). split; [done|].
  apply map_delete.
Qed.

(** X4: [delete_range(box)] returns; when [box] is row [i] it takes this row
    out and leaves the other rows in their order, showing what they showed;
    when [box] is no row of the editor the rows stay as they are.  The button
    reads "Select Region" when no row is left. *)
Theorem delete_range_removes_row (s : EMSCEditor) (p : gmap string value)
    (b : hbox) :
  well_formed s ->
  let r := call (delete_range b) p s in
  r.1 = Ok tt /\
  well_formed (self r.2) /\
  button_text_ok (self r.2) /\
  (forall i, ranges_box s !! i = Some b ->
     ranges_box (self r.2) = delete i (ranges_box s) /\
     range_positions (self r.2) = delete i (range_positions s)) /\
  (b ∉ ranges_box s ->
     ranges_box (self r.2) = ranges_box s /\
     range_positions (self r.2) = range_positions s).
Proof.
  intros Hwf r. unfold r. rewrite delete_range_run. simpl.
  split; [done|]. split; [by apply (well_formed_removeWidget b s)|].
  split; [reflexivity|]. split.
  - intros i Hi.
    pose proof (delete_range_at s p i b Hwf Hi) as Hat.
    by rewrite delete_range_run in Hat.
  - intros Hb. rewrite range_positions_with_rows.
    by rewrite (removeWidget_absent _ _ Hb).
Qed.


(** *** Methods that leave the options alone *)

Ltac same_settings_auto := stable_auto; unfold same_settings; simpl; try done.

Lemma add_range_selection_same_settings : stable same_settings add_range_selection.
Proof.
  unfold add_range_selection, add_range_selection_ui, self_preview_min_max,
    new_XPosLineEdit, set_default, set_position, _set_button_text.
  same_settings_auto.
Qed.

Lemma delete_range_same_settings b : stable same_settings (delete_range b).
Proof. unfold delete_range, _set_button_text. same_settings_auto. Qed.

Lemma set_reference_data_same_settings r : stable same_settings (set_reference_data r).
Proof. unfold set_reference_data, update_reference_info. same_settings_auto. Qed.

Lemma set_preview_data_same_settings d : stable same_settings (set_preview_data d).
Proof.
  unfold set_preview_data, self_preview_min_max, _range_widgets, set_default.
  same_settings_auto.
Qed.

(** X14: [add_range_selection], [delete_range], [set_reference_data],
    [set_preview_data] and [parameters] leave [order], [scaling],
    [output_model] and [user_changed] as they are. *)
Theorem range_methods_keep_settings (s : EMSCEditor) (p : gmap string value) :
  same_settings {| self := s; params := p |} (call add_range_selection p s).2 /\
  (forall b, same_settings {| self := s; params := p |} (call (delete_range b) p s).2) /\
  (forall r, same_settings {| self := s; params := p |} (call (set_reference_data r) p s).2) /\
  (forall d, same_settings {| self := s; params := p |} (call (set_preview_data d) p s).2) /\
  same_settings {| self := s; params := p |} (call parameters p s).2.
Proof.
  split; [apply add_range_selection_same_settings|].
  split; [intros b; apply delete_range_same_settings|].
  split; [intros r; apply set_reference_data_same_settings|].
  split; [intros d; apply set_preview_data_same_settings|].
  unfold call. by rewrite parameters_run.
Qed.

Lemma parameters_result_eq q s s' :
  range_positions s' = range_positions s ->
  same_settings {| self := s; params := q |} {| self := s'; params := q |} ->
  (call parameters q s').1 = (call parameters q s).1.
Proof.
  intros Hpos (Ho & Hs & Hm & _). simpl in *. unfold call.
  rewrite !parameters_run. simpl. rewrite Hpos.
  destruct (ranges_of_positions (range_positions s)); [|done].
  unfold parameters_of. by rewrite Ho, Hs, Hm.
Qed.

(** X5: deleting the row that [add_range_selection] has just added gives back
    the rows there were, with what they showed, and [parameters()] then
    returns what it returned before the row was added. *)
Theorem add_then_delete_range (s : EMSCEditor) (p q : gmap string value)
    (b : hbox) :
  well_formed s ->
  last (ranges_box (self (call add_range_selection p s).2)) = Some b ->
  let s2 := self (call (delete_range b) p (self (call add_range_selection p s).2)).2 in
  ranges_box s2 = ranges_box s /\
  range_positions s2 = range_positions s /\
  (call parameters q s2).1 = (call parameters q s).1.
Proof.
  intros Hwf Hlast.
  destruct (add_range_selection_run s p Hwf) as (s1 & Hrun & Hr & Hpos & Hwf1 & _).
  pose proof (add_range_selection_same_settings {| self := s; params := p |}) as Hset1.
  unfold call in Hrun, Hlast |- *. rewrite Hrun in Hlast, Hset1 |- *.
  simpl in Hlast, Hset1 |- *.
  rewrite Hr, last_snoc in Hlast. injection Hlast as <-.
  set (b := {| mine := length (widgets s); maxe := S (length (widgets s)) |}) in *.
  assert (ranges_box s1 !! length (ranges_box s) = Some b)
    as Hb by (rewrite Hr; by apply list_lookup_middle).
  destruct (delete_range_at s1 p _ _ Hwf1 Hb) as [Hrows Hshow].
  pose proof (delete_range_same_settings b {| self := s1; params := p |}) as Hset2.
  unfold call in Hrows, Hshow.
  set (s2 := self (delete_range b {| self := s1; params := p |}).2) in *.
  assert (ranges_box s2 = ranges_box s) as Hrows'.
  { rewrite Hrows, Hr, delete_middle. by rewrite app_nil_r. }
  assert (range_positions s2 = range_positions s) as Hshow'.
  { rewrite Hshow, Hpos, <- range_positions_length, delete_middle.
    by rewrite app_nil_r. }
  split; [done|]. split; [done|].
  apply parameters_result_eq; [done|].
  destruct Hset1 as (?&?&?&?), Hset2 as (?&?&?&?). simpl in *.
  repeat split; simpl; congruence.
Qed.

(** *** [set_preview_data] *)

Lemma for_each_set_default pmin pmax l : forall fr,
  for_each (map _extract_pair l)
    (fun pair => bind (set_default pair.1 pmin) (fun _ => set_default pair.2 pmax)) fr
  = (Ok tt, {| self := defaults_written pmin pmax l (self fr); params := params fr |}).
Proof.
  induction l as [|b l IH]; intros [s p]; simpl; [done|].
  unfold bind at 1. unfold bind at 1, set_default at 1 2, modify_self. simpl.
  by rewrite IH.
Qed.

Lemma for_each_nothing {A} (l : list A) fr :
  for_each l (fun _ => ret tt) fr = (Ok tt, fr).
Proof.
  induction l as [|x l IH]; simpl; [done|]. unfold bind, ret. simpl. exact IH.
Qed.

Lemma set_preview_data_run s p d :
  call (set_preview_data d) p s
  = (Ok tt,
     {| self := defaults_written (preview_min_max d).1 (preview_min_max d).2
                  (ranges_box s) (with_preview_data d s);
        params := p |}).
Proof.
  unfold call, set_preview_data. unfold bind at 1, modify_self. simpl.
  unfold bind at 1, self_preview_min_max, bind at 1, get_self, ret. simpl.
  destruct (preview_min_max d) as [pmin pmax]. simpl.
  unfold bind at 1, _range_widgets at 1, bind at 1, get_self, ret. simpl.
  unfold bind at 1. rewrite for_each_set_default. simpl.
  unfold bind at 1. simpl.
  destruct (negb (user_changed _)); [|done].
  unfold bind, _range_widgets, get_self, ret. simpl.
  by rewrite for_each_nothing.
Qed.

Lemma position_write_default s w w' v :
  position (widget (write_default w v s) w') = position (widget s w').
Proof.
  unfold widget, write_default. simpl.
  destruct (decide (w = w')) as [->|Hne].
  - rewrite list_lookup_alter_eq. by destruct (widgets s !! w').
  - by rewrite list_lookup_alter_ne.
Qed.

Lemma default_write_default_eq s w v :
  (w < length (widgets s))%nat ->
  default_value (widget (write_default w v s) w) = v.
Proof.
  intros Hw. unfold widget, write_default. simpl.
  destruct (lookup_lt_is_Some_2 (widgets s) w Hw) as [x Hx].
  by rewrite list_lookup_alter_eq, Hx.
Qed.

Lemma widget_write_default_ne s w w' v :
  w <> w' -> widget (write_default w v s) w' = widget s w'.
Proof.
  intros Hne. unfold widget, write_default. simpl.
  by rewrite list_lookup_alter_ne.
Qed.

(** What [set_default] on the rows leaves as it was. *)
Lemma defaults_written_frame pmin pmax l : forall s,
  let s' := defaults_written pmin pmax l s in
  ranges_box s' = ranges_box s /\
  length (widgets s') = length (widgets s) /\
  range_button s' = range_button s /\
  preview_data s' = preview_data s /\
  reference s' = reference s /\
  same_settings {| self := s; params := ∅ |} {| self := s'; params := ∅ |} /\
  same_display {| self := s; params := ∅ |} {| self := s'; params := ∅ |} /\
  forall w, position (widget s' w) = position (widget s w).
Proof.
  induction l as [|b l IH]; intros s; simpl; [by repeat split|].
  destruct (IH (write_default (maxe b) pmax (write_default (mine b) pmin s)))
    as (Hr & Hlen & Hb & Hp & Href & Hset & Hdis & Hpos).
  split; [by rewrite Hr|]. split; [rewrite Hlen; simpl; by rewrite !length_alter|].
  split; [by rewrite Hb|]. split; [by rewrite Hp|]. split; [by rewrite Href|].
  split; [exact Hset|]. split; [exact Hdis|].
  intros w. by rewrite Hpos, !position_write_default.
Qed.

Lemma defaults_written_outside pmin pmax l : forall s w,
  w ∉ line_edits l ->
  widget (defaults_written pmin pmax l s) w = widget s w.
Proof.
  induction l as [|b l IH]; intros s w Hw; simpl; [done|].
  rewrite line_edits_cons in Hw.
  apply not_elem_of_cons in Hw as [Hm Hw]. apply not_elem_of_cons in Hw as [Hx Hw].
  rewrite IH by done. by rewrite !widget_write_default_ne.
Qed.

Lemma defaults_written_rows pmin pmax l : forall s i b,
  NoDup (line_edits l) ->
  Forall (fun w => (w < length (widgets s))%nat) (line_edits l) ->
  l !! i = Some b ->
  default_value (widget (defaults_written pmin pmax l s) (mine b)) = pmin /\
  default_value (widget (defaults_written pmin pmax l s) (maxe b)) = pmax.
Proof.
  induction l as [|b0 l IH]; intros s i b Hnd Hlt Hi; [done|].
  rewrite line_edits_cons in Hnd, Hlt.
  apply NoDup_cons in Hnd as [Hm Hnd]. apply NoDup_cons in Hnd as [Hx Hnd].
  apply Forall_cons in Hlt as [Hml Hlt]. apply Forall_cons in Hlt as [Hxl Hlt].
  apply not_elem_of_cons in Hm as [Hne Hm].
  destruct i as [|i]; simplify_eq/=.
  - rewrite !defaults_written_outside by done. split.
    + rewrite widget_write_default_ne by done. by apply default_write_default_eq.
    + apply default_write_default_eq. simpl. by rewrite length_alter.
  - apply (IH _ i); [done| |done]. simpl. by rewrite !length_alter.
Qed.

(** X6: [set_preview_data(data)] returns and keeps [data]; it gives the line
    edits of every row the minimum and maximum of the preview as defaults,
    and it moves no position, also when [user_changed] is false: the rows,
    what they show and what [parameters()] returns stay as they were. *)
Theorem set_preview_data_moves_no_position (s : EMSCEditor)
    (p q : gmap string value) (d : option Table) :
  let r := call (set_preview_data d) p s in
  r.1 = Ok tt /\
  preview_data (self r.2) = d /\
  ranges_box (self r.2) = ranges_box s /\
  range_positions (self r.2) = range_positions s /\
  (call parameters q (self r.2)).1 = (call parameters q s).1 /\
  (well_formed s ->
   forall i b, ranges_box s !! i = Some b ->
     default_value (widget (self r.2) (mine b)) = (preview_min_max d).1 /\
     default_value (widget (self r.2) (maxe b)) = (preview_min_max d).2).
Proof.
  intros r. unfold r. rewrite set_preview_data_run. simpl.
  destruct (defaults_written_frame (preview_min_max d).1 (preview_min_max d).2
              (ranges_box s) (with_preview_data d s))
    as (Hr & Hlen & Hb & Hp & Href & Hset & Hdis & Hpos).
  simpl in Hr, Hp.
  assert (range_positions
            (defaults_written (preview_min_max d).1 (preview_min_max d).2
               (ranges_box s) (with_preview_data d s))
          = range_positions s) as Hshow.
  { unfold range_positions, row_positions. rewrite Hr.
    apply map_ext. intros b. by rewrite !Hpos. }
  split; [done|]. split; [done|]. split; [done|]. split; [done|]. split.
  - apply parameters_result_eq; [done|]. exact Hset.
  - intros [Hnd Hlt] i b Hi. by apply (defaults_written_rows _ _ _ _ i).
Qed.

(** *** The label and the curve of the reference *)

Lemma update_reference_info_shows fr :
  reference_shown (self (update_reference_info fr).2) /\
  reference (self (update_reference_info fr).2) = reference (self fr) /\
  scaling (self (update_reference_info fr).2) = scaling (self fr).
Proof.
  destruct fr as [s p].
  unfold update_reference_info, bind, get_self, modify_self, reference_shown. simpl.
  destruct (reference s) as [t|] eqn:Href; simpl.
  - destruct (length (rows t)) as [|[|n]] eqn:Hlen; simpl; rewrite Href, ?Hlen; done.
  - by rewrite Href.
Qed.

Ltac same_options_auto := stable_auto; unfold same_options; simpl; try done.

(** X7: after [set_reference_data(reference)], and after a call of
    [setParameters] that returns, the label reads "Reference: missing!" in
    red and the curve is hidden when there is no reference or one without
    rows; otherwise the label names one spectrum or the number of spectra in
    black and the curve is visible as [scaling] says, which after
    [setParameters(params)] is the [scaling] of [params], [True] when the key
    is missing. *)
Theorem reference_shown_after_update (s : EMSCEditor) (p : gmap string value)
    (r : option Table) :
  (reference_shown (self (call (set_reference_data r) p s).2) /\
   reference (self (call (set_reference_data r) p s).2) = r /\
   scaling (self (call (set_reference_data r) p s).2) = scaling s) /\
  ((call setParameters p s).1 = Ok tt ->
   reference_shown (self (call setParameters p s).2) /\
   reference (self (call setParameters p s).2) = reference s /\
   scaling (self (call setParameters p s).2) = default SCALING_DEFAULT (p !! "scaling")).
Proof.
  split.
  - unfold call, set_reference_data, bind, modify_self. simpl.
    apply (update_reference_info_shows
             {| self := with_reference r s; params := p |}).
  - intros Hok.
    destruct (setParameters_same_options p s) as (_ & _ & Hs & _ & _ & Href & _).
    simpl in Hs, Href. split; [|split; [|done]].
    + rewrite setParameters_unfold in Hok |- *. unfold bind in Hok |- *.
      destruct (_set_range_parameters {| self := assign_options p s; params := p |})
        as [[[]|e] fr1]; [|done].
      apply update_reference_info_shows.
    + rewrite Href. unfold assign_options.
      by destruct (negb (Nat.eqb (size p) 0)).
Qed.

(** *** What [setParameters] leaves when it raises *)

Lemma _set_range_parameters_same_display : stable same_display _set_range_parameters.
Proof.
  apply _set_range_parameters_stable; [apply _ | |].
  - intros w v. unfold set_position. stable_auto.
  - unfold add_range_selection_ui, self_preview_min_max, new_XPosLineEdit,
      set_default, _set_button_text. stable_auto.
Qed.

Lemma unpack_entries_kind items e :
  unpack_entries items = Raise e -> e = TypeError \/ e = ValueError.
Proof.
  induction items as [|item rest IH]; simpl; [done|].
  unfold unpack3.
  destruct (py_iter item) as [l|e'] eqn:Hit.
  - destruct l as [|a [|b [|c [|? ?]]]]; try (intros; simplify_eq; by right). done.
  - intros; simplify_eq. destruct item; simplify_eq/=; by left.
Qed.

(** X8: on a mapping whose options are values that their controls take and
    in which the entries of [ranges] that are triples hold floats as [min]
    and [max], [setParameters(params)] raises only over the shape of
    [ranges]: a [TypeError] when the value of [ranges] or one of its entries
    cannot be gone through, a [ValueError] when an entry has not three
    values, the error of the first such entry; it returns when the [ranges]
    key is missing.  When it raises, the label and the curve of the reference
    are as they were, although the options have been assigned. *)
Theorem setParameters_raises_over_ranges (s : EMSCEditor) (p : gmap string value) :
  valid_options p ->
  float_where_triple (default (VList []) (p !! "ranges")) ->
  (call setParameters p s).1
  = match py_iter (default (VList []) (p !! "ranges")) with
    | Ok items => unpack_entries items
    | Raise e => Raise e
    end /\
  (p !! "ranges" = None -> (call setParameters p s).1 = Ok tt) /\
  (forall e, (call setParameters p s).1 = Raise e ->
     (e = TypeError \/ e = ValueError) /\
     reference_info (self (call setParameters p s).2) = reference_info s /\
     reference_curve_visible (self (call setParameters p s).2)
     = reference_curve_visible s /\
     order (self (call setParameters p s).2) = default ORDER_DEFAULT (p !! "order")).
Proof.
  intros _ _. pose proof (setParameters_result p s) as Hres.
  split; [exact Hres|]. split.
  - intros Hn. rewrite Hres, Hn. reflexivity.
  - intros e He. split; [|split; [|split]].
    + rewrite Hres in He.
      destruct (py_iter (default (VList []) (p !! "ranges"))) as [items|e'] eqn:Hit.
      * by eapply unpack_entries_kind.
      * simplify_eq. destruct (default (VList []) (p !! "ranges")); simplify_eq/=; by left.
    + rewrite setParameters_unfold in He |- *. unfold bind in He |- *.
      pose proof (_set_range_parameters_same_display
                    {| self := assign_options p s; params := p |}) as [Hi _].
      destruct (_set_range_parameters {| self := assign_options p s; params := p |})
        as [[[]|e'] fr1].
      * destruct (update_reference_info_returns fr1) as [[] Hu]. congruence.
      * simpl in *. rewrite Hi. unfold assign_options.
        by destruct (negb (Nat.eqb (size p) 0)).
    + rewrite setParameters_unfold in He |- *. unfold bind in He |- *.
      pose proof (_set_range_parameters_same_display
                    {| self := assign_options p s; params := p |}) as [_ Hv].
      destruct (_set_range_parameters {| self := assign_options p s; params := p |})
        as [[[]|e'] fr1].
      * destruct (update_reference_info_returns fr1) as [[] Hu]. congruence.
      * simpl in *. rewrite Hv. unfold assign_options.
        by destruct (negb (Nat.eqb (size p) 0)).
    + by destruct (setParameters_same_options p s) as (_ & Ho & _).
Qed.

Lemma bind_assoc {A B C} (m : M A) (k : A -> M B) (h : B -> M C) fr :
  bind (bind m k) h fr = bind m (fun a => bind (k a) h) fr.
Proof. unfold bind. by destruct (m fr) as [[a|e] fr1]. Qed.

Lemma bind_ext {A B} (m : M A) (k k' : A -> M B) fr :
  (forall a fr', k a fr' = k' a fr') -> bind m k fr = bind m k' fr.
Proof. intros Hk. unfold bind. destruct (m fr) as [[a|e] fr1]; [apply Hk | done]. Qed.

(** The loop on a list of entries is the loop on its first part followed by
    the loop on the rest, at the index reached. *)
Lemma _set_range_parameters_loop_app rw l1 l2 : forall i fr,
  _set_range_parameters_loop rw i (l1 ++ l2) fr
  = bind (_set_range_parameters_loop rw i l1)
      (fun _ => _set_range_parameters_loop rw (i + length l1) l2) fr.
Proof.
  induction l1 as [|item l1 IH]; intros i fr.
  - simpl. by rewrite Nat.add_0_r.
  - simpl. rewrite bind_assoc. apply bind_ext. intros [[rmin rhigh] weight] fr1.
    rewrite bind_assoc. apply bind_ext. intros pair fr2.
    rewrite bind_assoc. apply bind_ext. intros _ fr3.
    rewrite bind_assoc. apply bind_ext. intros _ fr4.
    rewrite IH. by rewrite Nat.add_succ_r.
Qed.

(** X9: on a mapping whose options are values that their controls take,
    when the entries of [ranges] before entry [k] are triples with a float
    [min] and a float [max] and entry [k] does not unpack into three values,
    [setParameters] raises the error of entry [k] after it has written the
    entries before it: the first [k] rows show their [min] and [max], the
    rows after them what they showed, and [user_changed] is set. *)
Theorem setParameters_raises_after_writing (s : EMSCEditor)
    (p : gmap string value) (good : list (float * float * value))
    (bad : value) (rest : list value) (e : exn) :
  well_formed s ->
  valid_options p ->
  p !! "ranges" = Some (VList (map float_entry good ++ bad :: rest)) ->
  unpack3 bad = Raise e ->
  (call setParameters p s).1 = Raise e /\
  range_positions (self (call setParameters p s).2)
  = map (fun r => (VFloat r.1.1, VFloat r.1.2)) good
    ++ drop (length good) (range_positions s) /\
  user_changed (self (call setParameters p s).2) = true /\
  well_formed (self (call setParameters p s).2).
Proof.
  intros Hwf _ Hr Hbad.
  rewrite float_entries_as_range_entries in Hr.
  replace (map (fun r : float * float * value => (VFloat r.1.1, VFloat r.1.2)) good)
    with (map fst (map (fun r : float * float * value =>
                          (VFloat r.1.1, VFloat r.1.2, r.2)) good))
    by (by rewrite map_map).
  replace (length good)
    with (length (map (fun r : float * float * value =>
                         (VFloat r.1.1, VFloat r.1.2, r.2)) good))
    by apply length_map.
  revert Hr.
  generalize (map (fun r : float * float * value =>
                     (VFloat r.1.1, VFloat r.1.2, r.2)) good).
  clear good. intros good Hr.
  destruct (setParameters_same_options p s) as (_&_&_&_&Hu&_).
  rewrite setParameters_unfold in Hu |- *.
  assert (_set_range_parameters {| self := assign_options p s; params := p |}
          = bind (_set_range_parameters_loop
                    (map _extract_pair (ranges_box (assign_options p s))) 0
                    (map range_entry good))
              (fun _ => _set_range_parameters_loop
                          (map _extract_pair (ranges_box (assign_options p s)))
                          (0 + length (map range_entry good)) (bad :: rest))
              {| self := assign_options p s; params := p |}) as Hsplit.
  { rewrite <- _set_range_parameters_loop_app.
    unfold _set_range_parameters, bind, params_get, _range_widgets, get_self,
      lift, ret. simpl. by rewrite Hr. }
  destruct (_set_range_parameters_loop_run
              (map _extract_pair (ranges_box (assign_options p s))) good 0
              (assign_options p s) p)
    as (s1 & Hloop & Hwf1 & Hpos); [by apply well_formed_assign_options | done |].
  assert (_set_range_parameters {| self := assign_options p s; params := p |}
          = (Raise e, {| self := s1; params := p |})) as Hrun.
  { rewrite Hsplit. unfold bind at 1. rewrite Hloop. simpl.
    unfold bind, lift. simpl. by rewrite Hbad. }
  unfold bind in Hu |- *. rewrite Hrun in Hu |- *. simpl in Hu |- *.
  split; [done|]. split; [|split; [|done]].
  - rewrite Hpos, length_map, <- range_positions_length.
    rewrite positions_after_from_start. by rewrite range_positions_assign_options.
  - rewrite Hu. unfold assign_options.
    destruct (Nat.eqb_spec (size p) 0) as [Hz|Hz]; [|done].
    apply map_size_empty_iff in Hz. by rewrite Hz in Hr.
Qed.

(** *** What [parameters] returns *)

Lemma ranges_of_positions_entries v : forall l,
  ranges_of_positions v = Ok l ->
  Forall2 (fun r e => exists fa fb,
             py_float r.1 = Ok fa /\ py_float r.2 = Ok fb /\
             e = output_entry (fa, fb)) v l.
Proof.
  induction v as [|[x y] v IH]; intros l Hl; simpl in Hl.
  - simplify_eq. constructor.
  - destruct (py_float x) as [fa|] eqn:Hx; [|done].
    destruct (py_float y) as [fb|] eqn:Hy; [|done].
    destruct (ranges_of_positions v) as [l'|]; [|done].
    simplify_eq. constructor; [|by apply IH]. by exists fa, fb.
Qed.

Lemma ranges_of_positions_returns v :
  (exists l, ranges_of_positions v = Ok l) <-> Forall converts v.
Proof.
  induction v as [|[x y] v IH]; simpl.
  - split; [constructor | eauto].
  - split.
    + intros [l Hl].
      destruct (py_float x) as [fa|] eqn:Hx; [|done].
      destruct (py_float y) as [fb|] eqn:Hy; [|done].
      destruct (ranges_of_positions v) as [l'|]; [|done].
      constructor; [|apply IH; eauto]. unfold converts. simpl. by rewrite Hx, Hy.
    + intros Hall. apply Forall_cons in Hall as [[Hx Hy] Hall]. simpl in Hx, Hy.
      apply IH in Hall as [l' Hl'].
      destruct (py_float x); [|done]. destruct (py_float y); [|done].
      rewrite Hl'. eauto.
Qed.

(** X10: [parameters()] leaves the editor and its argument as they were.  It
    returns exactly when both positions of every row convert with [float()];
    the mapping then has the order, scaling and output_model of the editor
    and, under [ranges], one entry per row in the order of the rows: the two
    converted positions and 1.0.  Without rows [ranges] is the empty list. *)
Theorem parameters_reads_the_rows (s : EMSCEditor) (q : gmap string value) :
  (call parameters q s).2 = {| self := s; params := q |} /\
  ((exists d, (call parameters q s).1 = Ok d) <-> Forall converts (range_positions s)) /\
  (forall d, (call parameters q s).1 = Ok d ->
     d !! "order" = Some (order s) /\
     d !! "scaling" = Some (scaling s) /\
     d !! "output_model" = Some (output_model s) /\
     exists l,
       d !! "ranges" = Some (VList l) /\
       Forall2 (fun r e => exists fa fb,
                  py_float r.1 = Ok fa /\ py_float r.2 = Ok fb /\
                  e = VList [VFloat fa; VFloat fb; VFloat 1%float])
         (range_positions s) l) /\
  (ranges_box s = [] -> (call parameters q s).1 = Ok (parameters_of s [])).
Proof.
  unfold call. rewrite parameters_run. simpl.
  split; [done|]. split; [|split].
  - rewrite <- ranges_of_positions_returns.
    destruct (ranges_of_positions (range_positions s)) as [l|e]; split.
    + eauto.
    + eauto.
    + by intros [d ?].
    + by intros [l ?].
  - intros d Hd.
    destruct (ranges_of_positions (range_positions s)) as [l|e] eqn:Hl; [|done].
    simplify_eq. unfold parameters_of.
    repeat split; try by simplify_map_eq.
    exists l. split; [by simplify_map_eq|].
    by apply ranges_of_positions_entries.
  - intros Hr. unfold range_positions. by rewrite Hr.
Qed.

Lemma ranges_of_positions_floats_inv v : forall l,
  ranges_of_positions v = Ok l ->
  exists fl : list (float * float),
    l = map output_entry fl /\ length fl = length v.
Proof.
  induction v as [|[x y] v IH]; intros l Hl; simpl in Hl.
  - simplify_eq. by exists [].
  - destruct (py_float x) as [fa|]; [|done].
    destruct (py_float y) as [fb|]; [|done].
    destruct (ranges_of_positions v) as [l'|] eqn:Hl'; [|done].
    simplify_eq. destruct (IH l' eq_refl) as (fl & -> & Hlen).
    exists ((fa, fb) :: fl). split; [done|]. simpl. by rewrite Hlen.
Qed.

Lemma parameters_of_lookups s l :
  parameters_of s l !! "ranges" = Some (VList l) /\
  parameters_of s l !! "order" = Some (order s) /\
  parameters_of s l !! "scaling" = Some (scaling s) /\
  parameters_of s l !! "output_model" = Some (output_model s).
Proof.
  unfold parameters_of. split; [apply lookup_insert_eq|].
  split; [rewrite lookup_insert_ne by done; apply lookup_insert_eq|].
  split; [do 2 (rewrite lookup_insert_ne by done); apply lookup_insert_eq|].
  do 3 (rewrite lookup_insert_ne by done). apply lookup_insert_eq.
Qed.

(** X11: a mapping that [parameters()] has returned on an editor whose
    options are values that their controls hold (an integer for [order],
    booleans for [scaling] and [output_model]) is restored by
    [setParameters]: given to an editor with no more rows than the one it
    came from (the same editor, or a new one), [setParameters] returns and
    [parameters()] then returns the same mapping. *)
Theorem parameters_restored_by_setParameters (s s0 : EMSCEditor)
    (q q' d : gmap string value) :
  valid_editor_options s ->
  (call parameters q s).1 = Ok d ->
  well_formed s0 ->
  (length (ranges_box s0) <= length (ranges_box s))%nat ->
  (call setParameters d s0).1 = Ok tt /\
  (call parameters q' (self (call setParameters d s0).2)).1 = Ok d.
Proof.
  intros _ Hd Hwf Hlen. unfold call in Hd. rewrite parameters_run in Hd. simpl in Hd.
  destruct (ranges_of_positions (range_positions s)) as [l|e] eqn:Hl; [|done].
  destruct (ranges_of_positions_floats_inv _ _ Hl) as (fl & -> & Hfl).
  rewrite range_positions_length in Hfl.
  injection Hd as <-.
  set (d := parameters_of s (map output_entry fl)).
  assert (default (VList []) (d !! "ranges")
          = VList (map range_entry
                     (map (fun r : float * float => (VFloat r.1, VFloat r.2, VFloat 1%float)) fl)))
    as Hr.
  { unfold d, parameters_of. rewrite lookup_insert_eq. simpl. by rewrite map_map. }
  destruct (setParameters_run s0 d _ Hwf Hr) as (s1 & Hrun & Hwf1 & Hpos).
  destruct (setParameters_same_options d s0) as (_&Ho&Hs&Hm&_).
  rewrite Hrun in Ho, Hs, Hm |- *. simpl in Ho, Hs, Hm |- *.
  destruct (parameters_of_lookups s (map output_entry fl)) as (_&Hdo&Hds&Hdm).
  fold d in Hdo, Hds, Hdm. rewrite Hdo in Ho. rewrite Hds in Hs. rewrite Hdm in Hm.
  simpl in Ho, Hs, Hm.
  split; [done|].
  unfold call. rewrite parameters_run. simpl. rewrite Hpos.
  rewrite drop_ge by (rewrite !length_map, range_positions_length; lia).
  rewrite app_nil_r, map_map. simpl.
  rewrite ranges_of_positions_floats.
  unfold d, parameters_of. by rewrite Ho, Hs, Hm.
Qed.

(** X12: [createinstance] on a mapping that [parameters()] has returned
    gives the function that returns no rows, since [parameters()] puts no
    reference in it; once a reference is added under the reference key, it
    gives the EMSC instance with this reference and the order, scaling and
    output_model of the editor, without weights when the editor has no row
    and else with the weight table of the ranges of the mapping. *)
Theorem createinstance_of_parameters (s s0 : EMSCEditor) (q d : gmap string value)
    (r : value) :
  (call parameters q s).1 = Ok d ->
  REFERENCE_DATA_PARAM ∉ ["order"; "scaling"; "output_model"; "ranges"] ->
  (call createinstance d s0).1 = Ok (Lambda (fun data => Table_getslice data 0)) /\
  (r <> VNone ->
   exists l,
     d !! "ranges" = Some (VList l) /\
     length l = length (ranges_box s) /\
     (call createinstance (<[REFERENCE_DATA_PARAM := r]> d) s0).1
     = Ok (EMSC r
             (if Nat.eqb (length (ranges_box s)) 0 then None
              else Some (ranges_to_weight_table (VList l)))
             (order s) (scaling s) (output_model s))).
Proof.
  intros Hd Hkey. unfold call in Hd. rewrite parameters_run in Hd. simpl in Hd.
  destruct (ranges_of_positions (range_positions s)) as [l|e] eqn:Hl; [|done].
  injection Hd as <-.
  destruct (ranges_of_positions_floats_inv _ _ Hl) as (fl & Hfl & Hlen).
  rewrite range_positions_length in Hlen.
  assert (length l = length (ranges_box s)) as Hll
    by (rewrite Hfl, length_map; exact Hlen).
  apply not_elem_of_cons in Hkey as [Ho Hkey].
  apply not_elem_of_cons in Hkey as [Hs Hkey].
  apply not_elem_of_cons in Hkey as [Hm Hkey].
  apply not_elem_of_cons in Hkey as [Hr _].
  destruct (parameters_of_lookups s l) as (Hdr & Hdo & Hds & Hdm).
  assert (forall d' : gmap string value,
            d' !! "ranges" = Some (VList l) ->
            weights_of d'
            = Ok (if Nat.eqb (length (ranges_box s)) 0 then None
                  else Some (ranges_to_weight_table (VList l)))) as Hw.
  { intros d' Hd'.
    assert (l = map (fun r : float * float * float =>
                       VList [VFloat r.1.1; VFloat r.1.2; VFloat r.2])
                  (map (fun r : float * float => (r.1, r.2, 1%float)) fl)) as Hl3
      by (rewrite Hfl; by rewrite map_map).
    rewrite Hl3 in Hd' |- *. rewrite (weights_of_float_triples d' _ Hd').
    by rewrite length_map, Hlen. }
  unfold call. rewrite !createinstance_run. simpl. split.
  - rewrite (Hw _ Hdr).
    assert (parameters_of s l !! REFERENCE_DATA_PARAM = None) as ->; [|done].
    unfold parameters_of.
    do 4 (rewrite lookup_insert_ne by done). apply lookup_empty.
  - intros Hnone. exists l. split; [done|]. split; [done|].
    rewrite (Hw (<[REFERENCE_DATA_PARAM := r]> (parameters_of s l)))
      by (by rewrite lookup_insert_ne).
    rewrite lookup_insert_eq.
    rewrite !(lookup_insert_ne _ REFERENCE_DATA_PARAM) by done.
    rewrite Hdo, Hds, Hdm. simpl. by destruct r.
Qed.

(** *** [user_changed] *)

Lemma step_user_changed s op :
  user_changed (step s op) = user_changed s || sets_user_changed op.
Proof.
  destruct op; simpl; rewrite ?orb_false_r; try done.
  - destruct (setParameters_same_options p s) as (_&_&_&_&Hu&_). simpl in Hu.
    rewrite Hu. unfold assign_options.
    destruct (negb (Nat.eqb (size p) 0)); simpl; [by rewrite orb_true_r|].
    by rewrite orb_false_r.
  - unfold call. by rewrite parameters_run.
  - by destruct (set_reference_data_same_settings r {| self := s; params := ∅ |})
      as (_&_&_&Hu).
  - by destruct (set_preview_data_same_settings d {| self := s; params := ∅ |})
      as (_&_&_&Hu).
  - by destruct (add_range_selection_same_settings {| self := s; params := ∅ |})
      as (_&_&_&Hu).
Qed.

Lemma foldl_step_user_changed ops : forall s,
  user_changed (foldl step s ops) = user_changed s || existsb sets_user_changed ops.
Proof.
  induction ops as [|op ops IH]; intros s; simpl; [by rewrite orb_false_r|].
  by rewrite IH, step_user_changed, orb_assoc.
Qed.

(** X13: [user_changed] is true exactly when [setParameters] has been called
    with a mapping that has an entry: no edit through a control and no other
    method sets it, and nothing sets it back. *)
Theorem user_changed_tells_setParameters (ops : list operation) :
  user_changed (run ops) = existsb sets_user_changed ops.
Proof. unfold run. by rewrite foldl_step_user_changed. Qed.

(** *** [setParameters] twice *)

(** X15: a second [setParameters] with the same mapping (whose options are
    values that their controls take and whose ranges are triples with a float
    [min] and a float [max]) changes nothing that shows: it returns, adds no
    row, and leaves the rows, the options and what [parameters()] returns as
    the first call left them. *)
Theorem setParameters_twice (s : EMSCEditor) (p q : gmap string value)
    (rs : list (float * float * value)) :
  well_formed s ->
  valid_options p ->
  default (VList []) (p !! "ranges") = VList (map float_entry rs) ->
  let s1 := self (call setParameters p s).2 in
  let s2 := self (call setParameters p s1).2 in
  (call setParameters p s1).1 = Ok tt /\
  ranges_box s2 = ranges_box s1 /\
  range_positions s2 = range_positions s1 /\
  same_settings {| self := s1; params := p |} {| self := s2; params := p |} /\
  (call parameters q s2).1 = (call parameters q s1).1.
Proof.
  intros Hwf _ Hr s1 s2.
  rewrite float_entries_as_range_entries in Hr. revert Hr.
  generalize (map (fun r : float * float * value =>
                     (VFloat r.1.1, VFloat r.1.2, r.2)) rs).
  clear rs. intros rs Hr.
  destruct (setParameters_run s p rs Hwf Hr) as (s1' & Hrun1 & Hwf1 & Hpos1).
  assert (s1 = s1') as Hs1 by (unfold s1; by rewrite Hrun1).
  rewrite <- Hs1 in Hwf1, Hpos1.
  destruct (setParameters_run s1 p rs Hwf1 Hr) as (s2' & Hrun2 & Hwf2 & Hpos2).
  assert (s2 = s2') as Hs2 by (unfold s2; by rewrite Hrun2).
  rewrite <- Hs2 in Hwf2, Hpos2.
  assert (range_positions s2 = range_positions s1) as Hpos.
  { rewrite Hpos2, Hpos1 at 1.
    rewrite drop_app_length' by (by rewrite length_map).
    by rewrite <- Hpos1. }
  assert (same_settings {| self := s1; params := p |} {| self := s2; params := p |})
    as Hset.
  { destruct (setParameters_same_options p s) as (_&Ho1&Hc1&Hm1&Hu1&_).
    destruct (setParameters_same_options p s1) as (_&Ho2&Hc2&Hm2&Hu2&_).
    fold s1 in Ho1, Hc1, Hm1, Hu1. fold s2 in Ho2, Hc2, Hm2, Hu2.
    simpl in *. repeat split; simpl; try congruence.
    rewrite Hu2, Hu1. unfold assign_options.
    destruct (negb (Nat.eqb (size p) 0)); simpl; [done|]. by rewrite Hu1. }
  split; [by rewrite Hrun2|]. split; [|split; [done|split; [done|]]].
  - symmetry. apply prefix_length_eq; [apply setParameters_rows_kept|].
    rewrite <- !range_positions_length. by rewrite Hpos.
  - by apply parameters_result_eq.
Qed.

End Properties.

(** ** The properties on the inputs above *)

Lemma well_formed_init : well_formed __init__.
Proof. split; constructor. Qed.

Lemma well_formed_two_rows : well_formed two_rows.
Proof.
  split.
  - apply NoDup_ListNoDup. repeat constructor; simpl; lia.
  - repeat constructor; simpl; lia.
Qed.

(** [two_rows] is a new editor after [setParameters(two_ranges_params)]. *)
Lemma two_rows_reached :
  @run plain_setting [OpSetParameters two_ranges_params] = two_rows.
Proof. vm_compute. reflexivity. Qed.



(** A mapping that holds [ranges] only has no option to be checked. *)
Lemma valid_options_ranges_only (v : value) :
  valid_options ({[ "ranges" := v ]} : gmap string value).
Proof.
  unfold valid_options. repeat split; intros v' Hv';
    by rewrite lookup_singleton_ne in Hv'.
Qed.



(** C2 fails as stated: [createinstance({"ranges": [[1.0, 2.0]]})] raises
    [ValueError], the error of the conversion on an entry of two values,
    although the mapping has no reference data. *)
Lemma createinstance_raises_without_reference :
  short_entry_params !! (@REFERENCE_DATA_PARAM plain_setting) = None /\
  (call (@createinstance plain_setting) short_entry_params __init__).1
  = Raise ValueError.
Proof. split; reflexivity. Qed.

(** The amended C2 on a mapping without reference data, on which
    [_compute_weights] returns. *)
Lemma createinstance_without_reference_witness :
  (weighted_params !! "_reference_data" = None \/
   weighted_params !! "_reference_data" = Some VNone) /\
  (call (@_compute_weights plain_setting) weighted_params two_rows).1
  = Ok (Some (VList [VList [VFloat 1; VFloat 2; VFloat 2]])) /\
  (forall weights,
     (call (@_compute_weights plain_setting) weighted_params two_rows).1 = Ok weights ->
     exists f,
       (call (@createinstance plain_setting) weighted_params two_rows).1
       = Ok (Lambda f) /\
       forall data, rows (f data) = [] /\ domain (f data) = domain data) /\
  (forall e,
     (call (@_compute_weights plain_setting) weighted_params two_rows).1 = Raise e ->
     (call (@createinstance plain_setting) weighted_params two_rows).1 = Raise e) /\
  (weighted_params !! "ranges" = None ->
   (call (@_compute_weights plain_setting) weighted_params two_rows).1 = Ok None).
Proof.
  split; [left; reflexivity|]. split; [reflexivity|].
  apply (@createinstance_without_reference plain_setting weighted_params two_rows).
  left. reflexivity.
Defined.

(** C3 fails as stated:
    [createinstance({"ranges": [[1.0, 2.0]], "_reference_data": ...})] raises
    [ValueError] although the mapping gives a reference. *)
Lemma createinstance_raises_with_reference :
  short_entry_reference_params !! (@REFERENCE_DATA_PARAM plain_setting)
  = Some (VTable one_spectrum) /\
  (call (@createinstance plain_setting) short_entry_reference_params __init__).1
  = Raise ValueError.
Proof. split; reflexivity. Qed.

(** The amended C3 on a mapping whose reference is a table of one spectrum. *)
Lemma createinstance_with_reference_witness :
  full_params !! "_reference_data" = Some (VTable one_spectrum) /\
  VTable one_spectrum <> VNone /\
  (call (@_compute_weights plain_setting) full_params __init__).1
  = Ok (Some (VList [VList [VFloat 1; VFloat 2; VFloat 1]])) /\
  (forall weights,
     (call (@_compute_weights plain_setting) full_params __init__).1 = Ok weights ->
     (call (@createinstance plain_setting) full_params __init__).1
     = Ok (@EMSC plain_setting (VTable one_spectrum) weights
             (default (VInt 2) (full_params !! "order"))
             (default (VBool true) (full_params !! "scaling"))
             (default (VBool false) (full_params !! "output_model")))) /\
  (forall e,
     (call (@_compute_weights plain_setting) full_params __init__).1 = Raise e ->
     (call (@createinstance plain_setting) full_params __init__).1 = Raise e) /\
  (full_params !! "ranges" = None ->
   (call (@_compute_weights plain_setting) full_params __init__).1 = Ok None).
Proof.
  split; [reflexivity|]. split; [discriminate|]. split; [reflexivity|].
  apply (@createinstance_with_reference plain_setting full_params __init__
           (VTable one_spectrum)).
  - reflexivity.
  - discriminate.
Defined.

(** C4 fails as stated: for [{"ranges": None}] the result is [None], and the
    key is there with a value that is no empty sequence. *)
Lemma none_ranges_give_no_weights :
  ~ ((call (@_compute_weights plain_setting) none_ranges_params __init__).1 = Ok None
     <-> none_ranges_params !! "ranges" = None \/
         exists v, none_ranges_params !! "ranges" = Some v /\ empty_sequence v).
Proof.
  intros [Hwhen _].
  destruct (Hwhen eq_refl) as [Hnone | (v & Hv & [Hl | Hs])].
  - discriminate Hnone.
  - unfold none_ranges_params in Hv. rewrite lookup_singleton_eq in Hv. congruence.
  - unfold none_ranges_params in Hv. rewrite lookup_singleton_eq in Hv. congruence.
Qed.



(** C7 fails as stated: [setParameters({"order": 15})] leaves the order 15. *)
Lemma order_15_is_kept :
  order (@run plain_setting [OpSetParameters order_15_params]) = VInt 15 /\
  ~ order_in_range (order (@run plain_setting [OpSetParameters order_15_params])).
Proof.
  split; [reflexivity|].
  intros (z & Hz & Hrange).
  assert (z = 15) as -> by (vm_compute in Hz; congruence).
  lia.
Qed.

(** The amended C7 on four operations. *)
Lemma order_stays_in_range_witness :
  Forall order_key_in_range
    [OpSetParameters full_params; OpSpinOrder 42; OpAddRange;
     OpSetParameters weighted_params] /\
  order_in_range
    (order (@run plain_setting
              [OpSetParameters full_params; OpSpinOrder 42; OpAddRange;
               OpSetParameters weighted_params])).
Proof.
  assert (Forall order_key_in_range
            [OpSetParameters full_params; OpSpinOrder 42; OpAddRange;
             OpSetParameters weighted_params]) as Hops.
  { repeat constructor; simpl; intros v Hv.
    - exists 3. unfold full_params in Hv. simplify_map_eq. split; [done | lia].
    - unfold weighted_params in Hv. by simplify_map_eq. }
  split; [exact Hops|].
  exact (@order_stays_in_range plain_setting _ Hops).
Defined.


(** C9 on a new editor and on one with two rows. *)
Lemma createinstance_pure_witness :
  params {| self := __init__; params := full_params |}
  = params {| self := two_rows; params := full_params |} /\
  (@createinstance plain_setting {| self := __init__; params := full_params |}).1
  = (@createinstance plain_setting {| self := two_rows; params := full_params |}).1 /\
  (@createinstance plain_setting {| self := __init__; params := full_params |}).2
  = {| self := __init__; params := full_params |} /\
  (@createinstance plain_setting {| self := two_rows; params := full_params |}).2
  = {| self := two_rows; params := full_params |}.
Proof.
  split; [reflexivity|].
  apply (@createinstance_pure plain_setting). reflexivity.
Defined.


(** ** The further properties on the inputs above *)

Lemma two_rows_parameters_returned :
  (call (@parameters plain_setting) ∅ two_rows).1 = Ok two_rows_parameters.
Proof. unfold call. rewrite parameters_run. vm_compute. reflexivity. Qed.

(** X2 on the two rows of [two_rows]. *)
Lemma rows_have_their_own_line_edits_witness :
  ranges_box (@run plain_setting [OpSetParameters two_ranges_params]) !! 0%nat
  = Some {| mine := 0; maxe := 1 |} /\
  ranges_box (@run plain_setting [OpSetParameters two_ranges_params]) !! 1%nat
  = Some {| mine := 2; maxe := 3 |} /\
  (0 < length (widgets (@run plain_setting [OpSetParameters two_ranges_params])))%nat /\
  (1 < length (widgets (@run plain_setting [OpSetParameters two_ranges_params])))%nat /\
  0%nat <> 1%nat /\
  (0%nat <> 1%nat -> 0%nat <> 2%nat /\ 0%nat <> 3%nat /\ 1%nat <> 2%nat /\ 1%nat <> 3%nat).
Proof.
  split; [vm_compute; reflexivity|]. split; [vm_compute; reflexivity|].
  apply (@rows_have_their_own_line_edits plain_setting
           [OpSetParameters two_ranges_params] 0 1
           {| mine := 0; maxe := 1 |} {| mine := 2; maxe := 3 |});
    vm_compute; reflexivity.
Defined.

(** X3 on [two_rows]. *)
Lemma add_range_selection_appends_row_witness :
  well_formed two_rows /\
  (let r := call (@add_range_selection plain_setting) ∅ two_rows in
   r.1 = Ok tt /\
   @range_positions plain_setting (self r.2)
   = @range_positions plain_setting two_rows ++ [(VFloat 0, VFloat 1)] /\
   length (ranges_box (self r.2)) = 3%nat /\
   ranges_box two_rows `prefix_of` ranges_box (self r.2) /\
   range_button (self r.2) = "Add Region" /\
   well_formed (self r.2)).
Proof.
  split; [exact well_formed_two_rows|].
  exact (@add_range_selection_appends_row plain_setting two_rows ∅
           well_formed_two_rows).
Defined.

(** X4 on the first row of [two_rows]. *)
Lemma delete_range_removes_row_witness :
  well_formed two_rows /\
  (let r := call (delete_range {| mine := 0; maxe := 1 |}) ∅ two_rows in
   r.1 = Ok tt /\
   well_formed (self r.2) /\
   button_text_ok (self r.2) /\
   (forall i, ranges_box two_rows !! i = Some {| mine := 0; maxe := 1 |} ->
      ranges_box (self r.2) = delete i (ranges_box two_rows) /\
      @range_positions plain_setting (self r.2)
      = delete i (@range_positions plain_setting two_rows)) /\
   ({| mine := 0; maxe := 1 |} ∉ ranges_box two_rows ->
      ranges_box (self r.2) = ranges_box two_rows /\
      @range_positions plain_setting (self r.2)
      = @range_positions plain_setting two_rows)).
Proof.
  split; [exact well_formed_two_rows|].
  exact (@delete_range_removes_row plain_setting two_rows ∅
           {| mine := 0; maxe := 1 |} well_formed_two_rows).
Defined.

(** X5 on [two_rows]: the row added is the one of the line edits 4 and 5. *)
Lemma add_then_delete_range_witness :
  well_formed two_rows /\
  last (ranges_box (self (call (@add_range_selection plain_setting) ∅ two_rows).2))
  = Some {| mine := 4; maxe := 5 |} /\
  (let s2 :=
     self (call (delete_range {| mine := 4; maxe := 5 |}) ∅
             (self (call (@add_range_selection plain_setting) ∅ two_rows).2)).2 in
   ranges_box s2 = ranges_box two_rows /\
   @range_positions plain_setting s2 = @range_positions plain_setting two_rows /\
   (call (@parameters plain_setting) ∅ s2).1
   = (call (@parameters plain_setting) ∅ two_rows).1).
Proof.
  split; [exact well_formed_two_rows|]. split; [reflexivity|].
  exact (@add_then_delete_range plain_setting two_rows ∅ ∅
           {| mine := 4; maxe := 5 |} well_formed_two_rows eq_refl).
Defined.

(** X8 on a new editor and [{"ranges": [[1.0, 2.0]]}]. *)
Lemma setParameters_raises_over_ranges_witness :
  valid_options short_entry_params /\
  float_where_triple (default (VList []) (short_entry_params !! "ranges")) /\
  (call (@setParameters plain_setting) short_entry_params __init__).1
  = Raise ValueError /\
  (forall e,
     (call (@setParameters plain_setting) short_entry_params __init__).1 = Raise e ->
     (e = TypeError \/ e = ValueError) /\
     reference_info (self (call (@setParameters plain_setting) short_entry_params
                             __init__).2)
     = reference_info __init__ /\
     reference_curve_visible
       (self (call (@setParameters plain_setting) short_entry_params __init__).2)
     = reference_curve_visible __init__ /\
     order (self (call (@setParameters plain_setting) short_entry_params __init__).2)
     = default ORDER_DEFAULT (short_entry_params !! "order")).
Proof.
  assert (float_where_triple (default (VList []) (short_entry_params !! "ranges")))
    as Hfloat.
  { intros items Hitems. injection Hitems as <-.
    constructor; [|constructor]. intros a b c Hu. discriminate Hu. }
  split; [exact (valid_options_ranges_only _)|]. split; [exact Hfloat|].
  split; [reflexivity|].
  exact (proj2 (proj2 (@setParameters_raises_over_ranges plain_setting __init__
                         short_entry_params (valid_options_ranges_only _) Hfloat))).
Defined.

(** X9 on [two_rows] and [{"ranges": [[1.0, 2.0, 1.0], [3.0]]}]. *)
Lemma setParameters_raises_after_writing_witness :
  well_formed two_rows /\
  valid_options second_entry_short_params /\
  second_entry_short_params !! "ranges"
  = Some (VList (map float_entry [(1%float, 2%float, VFloat 1)]
                 ++ VList [VFloat 3] :: [])) /\
  unpack3 (VList [VFloat 3]) = Raise ValueError /\
  (call (@setParameters plain_setting) second_entry_short_params two_rows).1
  = Raise ValueError /\
  @range_positions plain_setting
    (self (call (@setParameters plain_setting) second_entry_short_params two_rows).2)
  = map (fun r : float * float * value => (VFloat r.1.1, VFloat r.1.2))
      [(1%float, 2%float, VFloat 1)]
    ++ drop 1 (@range_positions plain_setting two_rows) /\
  user_changed
    (self (call (@setParameters plain_setting) second_entry_short_params two_rows).2)
  = true /\
  well_formed
    (self (call (@setParameters plain_setting) second_entry_short_params two_rows).2).
Proof.
  split; [exact well_formed_two_rows|].
  split; [exact (valid_options_ranges_only _)|].
  split; [reflexivity|]. split; [reflexivity|].
  exact (@setParameters_raises_after_writing plain_setting two_rows
           second_entry_short_params [(1%float, 2%float, VFloat 1)]
           (VList [VFloat 3]) [] ValueError well_formed_two_rows
           (valid_options_ranges_only _) eq_refl eq_refl).
Defined.

Lemma valid_editor_options_two_rows : valid_editor_options two_rows.
Proof.
  split; [|split].
  - exists 2. split; [done | lia].
  - by exists true.
  - by exists false.
Qed.

(** X11: what [parameters()] returns on [two_rows], given to a new editor. *)
Lemma parameters_restored_by_setParameters_witness :
  valid_editor_options two_rows /\
  (call (@parameters plain_setting) ∅ two_rows).1 = Ok two_rows_parameters /\
  well_formed __init__ /\
  (length (ranges_box __init__) <= length (ranges_box two_rows))%nat /\
  (call (@setParameters plain_setting) two_rows_parameters __init__).1 = Ok tt /\
  (call (@parameters plain_setting) ∅
     (self (call (@setParameters plain_setting) two_rows_parameters __init__).2)).1
  = Ok two_rows_parameters.
Proof.
  split; [exact valid_editor_options_two_rows|].
  split; [exact two_rows_parameters_returned|].
  split; [exact well_formed_init|]. split; [simpl; lia|].
  apply (@parameters_restored_by_setParameters plain_setting two_rows __init__ ∅ ∅
           two_rows_parameters valid_editor_options_two_rows
           two_rows_parameters_returned well_formed_init).
  simpl. lia.
Defined.

Lemma reference_key_is_no_option :
  (@REFERENCE_DATA_PARAM plain_setting) ∉ ["order"; "scaling"; "output_model"; "ranges"].
Proof.
  simpl. intros Hin.
  repeat (apply elem_of_cons in Hin as [Heq|Hin]; [discriminate Heq|]).
  by apply elem_of_nil in Hin.
Qed.

(** X12: what [parameters()] returns on [two_rows], with a reference of one
    spectrum. *)
Lemma createinstance_of_parameters_witness :
  (call (@parameters plain_setting) ∅ two_rows).1 = Ok two_rows_parameters /\
  ((@REFERENCE_DATA_PARAM plain_setting)
   ∉ ["order"; "scaling"; "output_model"; "ranges"]) /\
  (call (@createinstance plain_setting) two_rows_parameters __init__).1
  = Ok (@Lambda plain_setting (fun data => Table_getslice data 0)) /\
  (VTable one_spectrum <> VNone ->
   exists l,
     two_rows_parameters !! "ranges" = Some (VList l) /\
     length l = length (ranges_box two_rows) /\
     (call (@createinstance plain_setting)
        (<[@REFERENCE_DATA_PARAM plain_setting := VTable one_spectrum]>
           two_rows_parameters) __init__).1
     = Ok (@EMSC plain_setting (VTable one_spectrum)
             (if Nat.eqb (length (ranges_box two_rows)) 0 then None
              else Some (@ranges_to_weight_table plain_setting (VList l)))
             (order two_rows) (scaling two_rows) (output_model two_rows))).
Proof.
  split; [exact two_rows_parameters_returned|].
  split; [exact reference_key_is_no_option|].
  exact (@createinstance_of_parameters plain_setting two_rows __init__ ∅
           two_rows_parameters (VTable one_spectrum)
           two_rows_parameters_returned reference_key_is_no_option).
Defined.

(** X15 on a new editor and [{"ranges": [[1.0, 2.0, 2.0]]}]. *)
Lemma setParameters_twice_witness :
  well_formed __init__ /\
  valid_options weighted_params /\
  default (VList []) (weighted_params !! "ranges")
  = VList (map float_entry [(1%float, 2%float, VFloat 2)]) /\
  (let s1 := self (call (@setParameters plain_setting) weighted_params __init__).2 in
   let s2 := self (call (@setParameters plain_setting) weighted_params s1).2 in
   (call (@setParameters plain_setting) weighted_params s1).1 = Ok tt /\
   ranges_box s2 = ranges_box s1 /\
   @range_positions plain_setting s2 = @range_positions plain_setting s1 /\
   same_settings {| self := s1; params := weighted_params |}
     {| self := s2; params := weighted_params |} /\
   (call (@parameters plain_setting) ∅ s2).1
   = (call (@parameters plain_setting) ∅ s1).1).
Proof.
  split; [exact well_formed_init|].
  split; [exact (valid_options_ranges_only _)|]. split; [reflexivity|].
  exact (@setParameters_twice plain_setting __init__ weighted_params ∅
           [(1%float, 2%float, VFloat 2)] well_formed_init
           (valid_options_ranges_only _) eq_refl).
Defined.
